(** * LLM Council backend: gateway, fan-out and message endpoints

    A shallow embedding of [backend/openrouter.py] and [backend/main.py].

    Python values that cross the boundary to the inference provider are
    JSON documents; Python exceptions are results in an error monad;
    the endpoints of [main.py] run in a state-and-error monad whose state
    holds the conversation store and the trace of observable actions.

    [backend/council.py] and [backend/storage.py] are imported by
    [main.py] but are not among the sources: the functions of the first
    are parameters (class [World]), the store of the second is modelled
    from the persistence contract of the specification (module
    [Storage]). *)

From Stdlib Require Import Ascii.
From stdpp Require Import base option list gmap strings numbers pretty.

Local Set Warnings "-register-all".

(** ** Python values *)

Module Py.

(** Instances of [Exception].  [HTTPException] is FastAPI's; every other
    exception is kept by class name and by the text [str(e)] gives.  Task
    cancellation and interpreter exits derive from [BaseException] only and
    are outside this model. *)
Inductive exn : Type :=
  | HTTPException (status_code : Z) (detail : string)
  | Exception (class : string) (msg : string).

Definition str_exn (e : exn) : string :=
  match e with
  | HTTPException status_code detail => pretty status_code +:+ ": " +:+ detail
  | Exception _ msg => msg
  end.

(** The outcome of evaluating an expression: a value, or a raised
    exception. *)
Inductive exc (A : Type) : Type :=
  | Ok (a : A)
  | Raise (e : exn).
Arguments Ok {A} a.
Arguments Raise {A} e.

Definition exc_bind {A B} (f : A → exc B) (m : exc A) : exc B :=
  match m with
  | Ok a => f a
  | Raise e => Raise e
  end.

#[export] Instance exc_ret : MRet exc := @Ok.
#[export] Instance exc_mbind : MBind exc := @exc_bind.

(** [try: m except Exception as e: h e] *)
Definition try_except {A} (m : exc A) (h : exn → exc A) : exc A :=
  match m with
  | Ok a => Ok a
  | Raise e => h e
  end.

(** What [json.loads] produces.  A Python [dict] is kept as an association
    list in insertion order; numbers are integers here (no claim depends on
    fractions). *)
Inductive json : Type :=
  | JNull
  | JBool (b : bool)
  | JNum (n : Z)
  | JStr (s : string)
  | JArr (items : list json)
  | JObj (fields : list (string * json)).

Definition type_name (v : json) : string :=
  match v with
  | JNull => "NoneType"
  | JBool _ => "bool"
  | JNum _ => "int"
  | JStr _ => "str"
  | JArr _ => "list"
  | JObj _ => "dict"
  end.

(** Truth value testing, as [if not choices] and [content or ...] use it. *)
Definition truthy (v : json) : bool :=
  match v with
  | JNull => false
  | JBool b => b
  | JNum n => negb (n =? 0)%Z
  | JStr s => negb (String.eqb s EmptyString)
  | JArr items => negb (Nat.eqb (length items) 0)
  | JObj fields => negb (Nat.eqb (length fields) 0)
  end.

(** [a or b] *)
Definition py_or (a b : json) : json := if truthy a then a else b.

(** ** Dictionaries: association lists in insertion order *)

Section dict.
Context {K V : Type} `{EqDecision K}.

Fixpoint dict_get (k : K) (d : list (K * V)) : option V :=
  match d with
  | [] => None
  | (k', v) :: d' => if decide (k = k') then Some v else dict_get k d'
  end.

(** [d[k] = v]: an existing key keeps its position and takes the new
    value, a new key goes to the end. *)
Fixpoint dict_set (k : K) (v : V) (d : list (K * V)) : list (K * V) :=
  match d with
  | [] => [(k, v)]
  | (k', v') :: d' =>
      if decide (k = k') then (k, v) :: d' else (k', v') :: dict_set k v d'
  end.

Definition keys (d : list (K * V)) : list K := d.*1.

(** [{k: v for k, v in items}] *)
Definition dict_of_items (items : list (K * V)) : list (K * V) :=
  foldl (λ d kv, dict_set kv.1 kv.2 d) [] items.
End dict.

(** [v.get(key, default)]: only a dict has the method. *)
Definition py_get (v : json) (key : string) (default : json) : exc json :=
  match v with
  | JObj fields => Ok (from_option id default (dict_get key fields))
  | _ => Raise (Exception "AttributeError"
                  ("'" +:+ type_name v +:+ "' object has no attribute 'get'"))
  end.

(** [v[0]] *)
Definition py_index0 (v : json) : exc json :=
  match v with
  | JArr (x :: _) => Ok x
  | JArr [] => Raise (Exception "IndexError" "list index out of range")
  | JStr (String c _) => Ok (JStr (String c EmptyString))
  | JStr EmptyString => Raise (Exception "IndexError" "string index out of range")
  | JObj _ => Raise (Exception "KeyError" "0")
  | _ => Raise (Exception "TypeError"
                  ("'" +:+ type_name v +:+ "' object is not subscriptable"))
  end.

(** [len(v)] *)
Definition py_len (v : json) : exc nat :=
  match v with
  | JStr s => Ok (String.length s)
  | JArr items => Ok (length items)
  | JObj fields => Ok (length fields)
  | _ => Raise (Exception "TypeError"
                  ("object of type '" +:+ type_name v +:+ "' has no len()"))
  end.

End Py.

(** ** backend/config.py *)

Module Config.

Definition OPENROUTER_API_URL : string :=
  "https://openrouter.ai/api/v1/chat/completions".

Definition COUNCIL_MODELS : list string :=
  [ "qwen/qwen3-vl-235b-a22b-thinking";
    "openai/gpt-oss-120b";
    "z-ai/glm-4.5-air:free";
    "arcee-ai/trinity-large-preview:free" ].

Definition CHAIRMAN_MODEL : string := "qwen/qwen3-vl-235b-a22b-thinking".

End Config.

(** ** backend/openrouter.py *)

Module Openrouter.
Import Py.

(** A chat message: a dict with the keys [role] and [content]. *)
Definition chat_message : Type := list (string * string).

Record request : Type := {
  url : string;
  headers : list (string * string);
  payload_model : string;
  payload_messages : list chat_message;
  request_timeout : Z;
}.

(** What the code reads of an [httpx.Response]: [json_body] is the outcome
    of [response.json()], which raises on a body that is not JSON. *)
Record response : Type := {
  status_code : Z;
  text : string;
  json_body : exc json;
}.

(** The result dict of [query_model]. *)
Record model_response : Type := {
  content : json;
  reasoning_details : json;
}.

Fixpoint replace_newlines (s : string) : string :=
  match s with
  | EmptyString => EmptyString
  | String c s' =>
      String (if Ascii.eqb c "010"%char then " "%char else c) (replace_newlines s')
  end.

Definition is_dict (v : json) : bool :=
  match v with JObj _ => true | _ => false end.

Definition default_timeout : Z := 120.

Section gateway.
(** [os.getenv("OPENROUTER_API_KEY")] *)
Variable OPENROUTER_API_KEY : option string.
(** Python's [str] on a decoded JSON value. *)
Variable py_str : json → string.

(** [_extract_error_message], openrouter.py lines 14-24. *)
Definition _extract_error_message (r : response) : exc string :=
  match json_body r with
  | Raise _ => Ok (replace_newlines (String.substring 0 300 (text r)))
  | Ok data =>
      error ← py_get data "error" JNull;
      if is_dict error then
        message ← py_get error "message" error;
        Ok (py_str message)
      else Ok (py_str (py_or error data))
  end.

Definition bearer : string :=
  "Bearer " +:+ from_option id "None" OPENROUTER_API_KEY.

(** The request that [query_model] posts. *)
Definition chat_request (model : string) (messages : list chat_message)
    (timeout : Z) : request :=
  {| url := Config.OPENROUTER_API_URL;
     headers :=
       [("Authorization", bearer); ("Content-Type", "application/json")];
     payload_model := model;
     payload_messages := messages;
     request_timeout := timeout |}.

(** [len(msg.get("content", ...))] summed over the messages. *)
Definition prompt_chars (messages : list chat_message) : nat :=
  sum_list ((λ msg : chat_message,
    String.length (from_option id EmptyString (dict_get "content" msg)))
    <$> messages).

(** The [try] block of [query_model], openrouter.py lines 63-115; [post] is
    the network: what
    [client.post] gives for the request, a response or an exception
    (transport error, timeout).  The logging calls are left out, the
    evaluation of their arguments is kept. *)
Definition query_model_try (post : request → exc response)
    (model : string) (messages : list chat_message) (timeout : Z)
    : exc (option model_response) :=
  response ← post (chat_request model messages timeout);
  if (400 <=? status_code response)%Z then
    _ ← _extract_error_message response;
    Ok None
  else
    data ← json_body response;
    choices ← py_get data "choices" (JArr []);
    if negb (truthy choices) then Ok None
    else
      choices_0 ← py_index0 choices;
      message ← py_get choices_0 "message" (JObj []);
      usage ← py_get data "usage" (JObj []);
      completion_tokens ← py_get usage "completion_tokens" (JStr "n/a");
      total_tokens ← py_get usage "total_tokens" (JStr "n/a");
      finish_reason ← py_get choices_0 "finish_reason" (JStr "unknown");
      content ← py_get message "content" JNull;
      reasoning_details ← py_get message "reasoning_details" JNull;
      content_chars ← py_len (py_or content (JStr EmptyString));
      Ok (Some {| content := content;
                  reasoning_details := reasoning_details |}).

(** [query_model], openrouter.py lines 27-125: the [try] block, and the
    handler [except Exception] that returns [None]. *)
Definition query_model (post : request → exc response)
    (model : string) (messages : list chat_message) (timeout : Z)
    : exc (option model_response) :=
  let prompt_chars := prompt_chars messages in
  try_except (query_model_try post model messages timeout) (λ e, Ok None).

(** [asyncio.gather] over the tasks: every task writes its result into the slot
    of its own position when it completes; [schedule] is the order in
    which the tasks complete.  The first task that raises makes [gather]
    raise; [None] is a gather that still waits for a task. *)
Section gather.
Context {A : Type}.
Variable tasks : list (exc A).

Fixpoint complete (schedule : list nat) (slots : list (option A))
    : exc (list (option A)) :=
  match schedule with
  | [] => Ok slots
  | i :: rest =>
      match tasks !! i with
      | None => complete rest slots
      | Some task => r ← task; complete rest (<[i := Some r]> slots)
      end
  end.

Definition gather (schedule : list nat) : option (exc (list A)) :=
  match complete schedule (replicate (length tasks) None) with
  | Raise e => Some (Raise e)
  | Ok slots => Ok <$> mapM id slots
  end.
End gather.

(** What the [i]-th call returns. *)
Definition response_of (posts : nat → request → exc response)
    (messages : list chat_message) (i : nat) (model : string)
    : option model_response :=
  match query_model (posts i) model messages default_timeout with
  | Ok r => r
  | Raise _ => None
  end.

Definition success_count (responses : list (option model_response)) : nat :=
  length (filter is_Some responses).

(** [query_models_parallel], openrouter.py lines 128-168; [posts i] is the
    network as the [i]-th task meets it. *)
Definition query_models_parallel (posts : nat → request → exc response)
    (schedule : list nat) (models : list string)
    (messages : list chat_message)
    : option (exc (list (string * option model_response))) :=
  let tasks :=
    imap (λ i model, query_model (posts i) model messages default_timeout)
      models in
  awaited ← gather tasks schedule;
  Some (responses ← awaited;
        let failed := (length models - success_count responses)%nat in
        Ok (dict_of_items (zip models responses))).
End gateway.

End Openrouter.

(** ** backend/storage.py *)

Module Storage.
Import Py.

(** Modelled from the spec: [backend/storage.py] is not among the sources.
    The persistence collaborator is a key-value store of conversation
    records keyed by an identifier, with [get_conversation],
    [add_user_message], [add_assistant_message] and
    [update_conversation_title]; the two [add_] operations append to the
    record's messages.  The specification does not say what a write to an
    unknown identifier does: here it raises, and nothing below depends on
    it, since both endpoints look the conversation up first. *)
Inductive message : Type :=
  | UserMessage (content : string)
  | AssistantMessage (stage1 stage2 stage3 : json).

(** Modelled from the spec: a conversation record, of which the endpoints
    read the messages and write the title and the messages. *)
Record conversation : Type := {
  title : string;
  messages : list message;
}.

(** Modelled from the spec: [get_conversation(id) -> record | absent]. *)
Definition get_conversation (conversation_id : string)
    (s : gmap string conversation) : option conversation :=
  s !! conversation_id.

(** Modelled from the spec: the exception of a write to an unknown
    identifier. *)
Definition not_found (conversation_id : string) : exn :=
  Exception "ValueError" ("Conversation " +:+ conversation_id +:+ " not found").

(** Modelled from the spec: a write replaces the record of the
    identifier. *)
Definition update (conversation_id : string)
    (f : conversation → conversation) (s : gmap string conversation)
    : exc (gmap string conversation) :=
  match s !! conversation_id with
  | None => Raise (not_found conversation_id)
  | Some c => Ok (<[conversation_id := f c]> s)
  end.

(** Modelled from the spec: [append_user_message(id, text)]. *)
Definition add_user_message (conversation_id content : string) :=
  update conversation_id
    (λ c, {| title := title c;
             messages := messages c ++ [UserMessage content] |}).

(** Modelled from the spec:
    [append_assistant_message(id, stage1, stage2, stage3)]. *)
Definition add_assistant_message (conversation_id : string)
    (stage1 stage2 stage3 : json) :=
  update conversation_id
    (λ c, {| title := title c;
             messages := messages c ++ [AssistantMessage stage1 stage2 stage3] |}).

(** Modelled from the spec: [set_title(id, title)]. *)
Definition update_conversation_title (conversation_id new_title : string) :=
  update conversation_id
    (λ c, {| title := new_title; messages := messages c |}).

End Storage.

(** ** backend/main.py *)

Module Main.
Import Py.

(** The coroutines of [backend/council.py] that the endpoints await. *)
Inductive coroutine : Type :=
  | Title
  | Stage1
  | Stage2
  | Stage3
  | FullCouncil.

(** The writes to the conversation store. *)
Inductive write : Type :=
  | AddUserMessage (conversation_id content : string)
  | UpdateConversationTitle (conversation_id title : string)
  | AddAssistantMessage (conversation_id : string) (stage1 stage2 stage3 : json).

(** What a run does, in program order.  [Yield] holds the object that is
    passed to [json.dumps] and framed as one server-sent event.  [Await c]
    is [await c(...)]: the coroutine starts and the caller is suspended
    until it has finished.  [CreateTask c] is [asyncio.create_task]: the
    coroutine starts and the caller goes on; [AwaitTask c] is the later
    [await] of that task.  [Stored w] is a write that the store accepted. *)
Inductive action : Type :=
  | Yield (event : json)
  | Await (c : coroutine)
  | CreateTask (c : coroutine)
  | AwaitTask (c : coroutine)
  | Stored (w : write).

(** [backend/council.py] is not among the sources; its functions are taken
    as given, each with the outcome of its call.  [storage_fault] is the
    exception, if any, that the store raises on a write (the store being
    out of reach). *)
Class World : Type := {
  generate_conversation_title : string → exc string;
  stage1_collect_responses : string → exc json;
  stage2_collect_rankings : string → json → exc (json * json);
  calculate_aggregate_rankings : json → json → exc json;
  stage3_synthesize_final : string → json → json → exc json;
  run_full_council : string → exc (json * json * json * json);
  storage_fault : write → option exn;
}.

Record state : Type := {
  store : gmap string Storage.conversation;
  trace : list action;
}.

(** Computations of the endpoints: the state survives a raised
    exception. *)
Definition M (A : Type) : Type := state → exc A * state.

Definition M_ret {A} (a : A) : M A := λ σ, (Ok a, σ).
Definition M_bind {A B} (f : A → M B) (m : M A) : M B :=
  λ σ, match m σ with
       | (Ok a, σ') => f a σ'
       | (Raise e, σ') => (Raise e, σ')
       end.
#[export] Instance M_mret : MRet M := @M_ret.
#[export] Instance M_mbind : MBind M := @M_bind.

Definition raise {A} (e : exn) : M A := λ σ, (Raise e, σ).
Definition lift {A} (m : exc A) : M A := λ σ, (m, σ).
Definition try_except {A} (m : M A) (h : exn → M A) : M A :=
  λ σ, match m σ with
       | (Ok a, σ') => (Ok a, σ')
       | (Raise e, σ') => h e σ'
       end.

Definition act (a : action) : M unit :=
  λ σ, (Ok (), {| store := store σ; trace := trace σ ++ [a] |}).

Definition yield (event : json) : M unit := act (Yield event).

(** [await c(...)] *)
Definition await {A} (c : coroutine) (outcome : exc A) : M A :=
  act (Await c);; lift outcome.

(** [asyncio.create_task(c(...))]: the task holds the outcome until it is
    awaited. *)
Definition create_task {A} (c : coroutine) (outcome : exc A) : M (exc A) :=
  act (CreateTask c);; mret outcome.

Definition await_task {A} (c : coroutine) (task : exc A) : M A :=
  act (AwaitTask c);; lift task.

Section endpoints.
Context {W : World}.

Definition get_conversation (conversation_id : string)
    : M (option Storage.conversation) :=
  λ σ, (Ok (Storage.get_conversation conversation_id (store σ)), σ).

Definition storage_write (w : write) : M unit :=
  λ σ, match storage_fault w with
       | Some e => (Raise e, σ)
       | None =>
           let written :=
             match w with
             | AddUserMessage cid content =>
                 Storage.add_user_message cid content (store σ)
             | UpdateConversationTitle cid title =>
                 Storage.update_conversation_title cid title (store σ)
             | AddAssistantMessage cid stage1 stage2 stage3 =>
                 Storage.add_assistant_message cid stage1 stage2 stage3 (store σ)
             end in
           match written with
           | Ok s => (Ok (), {| store := s; trace := trace σ ++ [Stored w] |})
           | Raise e => (Raise e, σ)
           end
       end.

Definition HTTP_404 : exn := HTTPException 404 "Conversation not found".

Definition is_empty (ms : list Storage.message) : bool :=
  Nat.eqb (length ms) 0.

(** [send_message], main.py lines 94-174:
    [POST /api/conversations/{conversation_id}/message].  Of the logging
    calls the evaluation of the arguments is kept. *)
Definition send_message (conversation_id content : string) : M json :=
  conversation ← get_conversation conversation_id;
  match conversation with
  | None => raise HTTP_404
  | Some conversation =>
      let is_first_message := is_empty (Storage.messages conversation) in
      storage_write (AddUserMessage conversation_id content);;
      (if is_first_message then
         title ← await Title (generate_conversation_title content);
         storage_write (UpdateConversationTitle conversation_id title)
       else mret ());;
      '(stage1_results, stage2_results, stage3_result, metadata) ←
        await FullCouncil (run_full_council content);
      _ ← lift (py_len stage1_results);
      _ ← lift (py_len stage2_results);
      _ ← lift (py_get stage3_result "model" (JStr "unknown"));
      storage_write
        (AddAssistantMessage conversation_id
           stage1_results stage2_results stage3_result);;
      mret (JObj [("stage1", stage1_results);
                  ("stage2", stage2_results);
                  ("stage3", stage3_result);
                  ("metadata", metadata)])
  end.

Definition event (type : string) (fields : list (string * json)) : json :=
  JObj (("type", JStr type) :: fields).

(** The [try] block of [event_generator], main.py lines 206-278. *)
Definition event_generator_try (conversation_id content : string)
    (is_first_message : bool) : M unit :=
  storage_write (AddUserMessage conversation_id content);;
  title_task ←
    (if is_first_message
     then task ← create_task Title (generate_conversation_title content);
          mret (Some task)
     else mret None);
  yield (event "stage1_start" []);;
  stage1_results ← await Stage1 (stage1_collect_responses content);
  _ ← lift (py_len stage1_results);
  yield (event "stage1_complete" [("data", stage1_results)]);;
  yield (event "stage2_start" []);;
  '(stage2_results, label_to_model) ←
    await Stage2 (stage2_collect_rankings content stage1_results);
  aggregate_rankings ←
    lift (calculate_aggregate_rankings stage2_results label_to_model);
  _ ← lift (py_len stage2_results);
  yield (event "stage2_complete"
           [("data", stage2_results);
            ("metadata", JObj [("label_to_model", label_to_model);
                               ("aggregate_rankings", aggregate_rankings)])]);;
  yield (event "stage3_start" []);;
  stage3_result ←
    await Stage3 (stage3_synthesize_final content stage1_results stage2_results);
  _ ← lift (py_get stage3_result "model" (JStr "unknown"));
  yield (event "stage3_complete" [("data", stage3_result)]);;
  match title_task with
  | Some task =>
      title ← await_task Title task;
      storage_write (UpdateConversationTitle conversation_id title);;
      yield (event "title_complete" [("data", JObj [("title", JStr title)])])
  | None => mret ()
  end;;
  storage_write
    (AddAssistantMessage conversation_id
       stage1_results stage2_results stage3_result);;
  yield (event "complete" []).

(** The [except Exception as e] block, main.py lines 280-288. *)
Definition event_generator_except (e : exn) : M unit :=
  yield (event "error" [("message", JStr (str_exn e))]).

Definition event_generator (conversation_id content : string)
    (is_first_message : bool) : M unit :=
  try_except
    (event_generator_try conversation_id content is_first_message)
    event_generator_except.

(** [send_message_stream], main.py lines 177-297:
    [POST /api/conversations/{conversation_id}/message/stream]; the
    streaming response runs the generator to its end. *)
Definition send_message_stream (conversation_id content : string) : M unit :=
  conversation ← get_conversation conversation_id;
  match conversation with
  | None => raise HTTP_404
  | Some conversation =>
      let is_first_message := is_empty (Storage.messages conversation) in
      event_generator conversation_id content is_first_message
  end.
End endpoints.

(** The steps of [send_message] before the council runs return: the user
    message is stored and, for a first message, the title is generated and
    stored. *)
Definition title_phase_returns {W : World} (conversation_id content : string)
    (conversation : Storage.conversation) : Prop :=
  storage_fault (AddUserMessage conversation_id content) = None ∧
  (is_empty (Storage.messages conversation) = true →
   ∃ title,
     generate_conversation_title content = Ok title ∧
     storage_fault (UpdateConversationTitle conversation_id title) = None).

(** An exception [e] that arises in [send_message] during title generation,
    the council stages or persistence, every step before it having
    returned. *)
Inductive pipeline_failure {W : World} (conversation_id content : string)
    (conversation : Storage.conversation) (e : exn) : Prop :=
  | user_message_not_stored :
      storage_fault (AddUserMessage conversation_id content) = Some e →
      pipeline_failure conversation_id content conversation e
  | title_generation_raises :
      storage_fault (AddUserMessage conversation_id content) = None →
      is_empty (Storage.messages conversation) = true →
      generate_conversation_title content = Raise e →
      pipeline_failure conversation_id content conversation e
  | title_not_stored title :
      storage_fault (AddUserMessage conversation_id content) = None →
      is_empty (Storage.messages conversation) = true →
      generate_conversation_title content = Ok title →
      storage_fault (UpdateConversationTitle conversation_id title) = Some e →
      pipeline_failure conversation_id content conversation e
  | council_raises :
      title_phase_returns conversation_id content conversation →
      run_full_council content = Raise e →
      pipeline_failure conversation_id content conversation e
  | assistant_message_not_stored stage1 stage2 stage3 metadata n1 n2 model :
      title_phase_returns conversation_id content conversation →
      run_full_council content = Ok (stage1, stage2, stage3, metadata) →
      py_len stage1 = Ok n1 →
      py_len stage2 = Ok n2 →
      py_get stage3 "model" (JStr "unknown") = Ok model →
      storage_fault (AddAssistantMessage conversation_id stage1 stage2 stage3)
        = Some e →
      pipeline_failure conversation_id content conversation e.

(** The actions of the three stages when nothing raises. *)
Definition stage_actions
    (stage1 stage2 label_to_model aggregate stage3 : json) : list action :=
  [ Yield (event "stage1_start" []);
    Await Stage1;
    Yield (event "stage1_complete" [("data", stage1)]);
    Yield (event "stage2_start" []);
    Await Stage2;
    Yield (event "stage2_complete"
             [("data", stage2);
              ("metadata", JObj [("label_to_model", label_to_model);
                                 ("aggregate_rankings", aggregate)])]);
    Yield (event "stage3_start" []);
    Await Stage3;
    Yield (event "stage3_complete" [("data", stage3)]) ].

(** The actions of the [try] block of [event_generator] up to the write of
    the assistant message, when nothing raises. *)
Definition actions_before_persisting (conversation_id content : string)
    (is_first_message : bool) (title : string)
    (stage1 stage2 label_to_model aggregate stage3 : json) : list action :=
  Stored (AddUserMessage conversation_id content)
  :: (if is_first_message then [CreateTask Title] else [])
  ++ stage_actions stage1 stage2 label_to_model aggregate stage3
  ++ (if is_first_message
      then [ AwaitTask Title;
             Stored (UpdateConversationTitle conversation_id title);
             Yield (event "title_complete"
                      [("data", JObj [("title", JStr title)])]) ]
      else []).

(** The messages that the writes of a trace append. *)
Definition appended (tr : list action) : list Storage.message :=
  omap (λ a, match a with
             | Stored (AddUserMessage _ content) =>
                 Some (Storage.UserMessage content)
             | Stored (AddAssistantMessage _ stage1 stage2 stage3) =>
                 Some (Storage.AssistantMessage stage1 stage2 stage3)
             | _ => None
             end) tr.

Definition is_assistant_write (a : action) : bool :=
  match a with
  | Stored (AddAssistantMessage _ _ _ _) => true
  | _ => false
  end.

(** The events of a trace, in the order of their emission. *)
Definition events (tr : list action) : list json :=
  omap (λ a, match a with Yield ev => Some ev | _ => None end) tr.

Definition event_type (ev : json) : option string :=
  match ev with
  | JObj fields =>
      match dict_get "type" fields with
      | Some (JStr t) => Some t
      | _ => None
      end
  | _ => None
  end.

(** [get_conversation], main.py lines 85-91:
    [GET /api/conversations/{conversation_id}].  The endpoint is named apart
    from the store's [get_conversation], which it calls. *)
Definition api_get_conversation (conversation_id : string)
    : M Storage.conversation :=
  conversation ← get_conversation conversation_id;
  match conversation with
  | None => raise HTTP_404
  | Some conversation => mret conversation
  end.

(** The log level handed to uvicorn, main.py lines 19-23; [env] is
    [os.getenv("LOG_LEVEL")], [upper] and [lower] are [str.upper] and
    [str.lower]. *)
Section log_level.
Variable upper lower : string → string.

Definition VALID_UVICORN_LOG_LEVELS : gset string :=
  {[ "critical"; "error"; "warning"; "info"; "debug"; "trace" ]}.

Definition LOG_LEVEL (env : option string) : string :=
  upper (from_option id "INFO" env).

Definition UVICORN_LOG_LEVEL (env : option string) : string :=
  let level := lower (LOG_LEVEL env) in
  if decide (level ∈ VALID_UVICORN_LOG_LEVELS) then level else "info".
End log_level.

(** The actions that generate, await or store a title. *)
Definition is_title_action (a : action) : bool :=
  match a with
  | Await Title | CreateTask Title | AwaitTask Title
  | Stored (UpdateConversationTitle _ _) => true
  | _ => false
  end.

(** The types of the events that do not end a stream. *)
Definition progress_event_types : list string :=
  [ "stage1_start"; "stage1_complete"; "stage2_start"; "stage2_complete";
    "stage3_start"; "stage3_complete"; "title_complete" ].

End Main.

(** ** Sample inputs *)

Module Examples.
Import Py Openrouter Main.

(** A rendering of values for the log line of a failed call; no result
    depends on it. *)
Definition str_of (v : json) : string := type_name v.

Definition response_200 (body : json) : response :=
  {| status_code := 200; text := EmptyString; json_body := Ok body |}.

Definition body_without_content : json :=
  JObj [("choices", JArr [JObj [("message", JObj [])]])].

Definition body_null_usage : json :=
  JObj [("choices", JArr [JObj [("message", JObj [("content", JStr "hi")])]]);
        ("usage", JNull)].

Definition body_empty_text : json :=
  JObj [("choices",
         JArr [JObj [("message", JObj [("content", JStr EmptyString)])]])].

Definition body_text : json :=
  JObj [("choices", JArr [JObj [("message", JObj [("content", JStr "hi")]);
                                ("finish_reason", JStr "stop")]]);
        ("usage", JObj [("completion_tokens", JNum 1);
                        ("total_tokens", JNum 9)])].

Definition response_503 : response :=
  {| status_code := 503; text := "Service Unavailable";
     json_body := Raise (Exception "JSONDecodeError" "Expecting value") |}.

Definition user_says (s : string) : chat_message :=
  [("role", "user"); ("content", s)].

(** A network on which the second call meets a refused connection. *)
Definition second_call_fails (i : nat) (_ : request) : exc response :=
  if Nat.eqb i 1
  then Raise (Exception "ConnectError" "connection refused")
  else Ok (response_200 body_text).

Definition body_saying (s : string) : json :=
  JObj [("choices", JArr [JObj [("message", JObj [("content", JStr s)])]])].

(** A network that answers each call with its own text and refuses the
    second. *)
Definition answers_by_call (i : nat) (_ : request) : exc response :=
  match i with
  | 0 => Ok (response_200 (body_saying "first"))
  | 1 => Raise (Exception "ConnectError" "connection refused")
  | _ => Ok (response_200 (body_saying "later"))
  end.

Definition repeated_models : list string :=
  ["openai/gpt-oss-120b"; "z-ai/glm-4.5-air:free"; "openai/gpt-oss-120b"].

(** A council in which every call returns. *)
Definition calm : World := {|
  generate_conversation_title := λ _, Ok "Greeting";
  stage1_collect_responses := λ _, Ok (JArr [JObj [("model", JStr "m1")]]);
  stage2_collect_rankings := λ _ _, Ok (JArr [], JObj [("Response A", JStr "m1")]);
  calculate_aggregate_rankings := λ _ _, Ok (JArr []);
  stage3_synthesize_final := λ _ _ _, Ok (JObj [("model", JStr "chairman")]);
  run_full_council := λ _,
    Ok (JArr [JObj [("model", JStr "m1")]], JArr [],
        JObj [("model", JStr "chairman")], JObj []);
  storage_fault := λ _, None;
|}.

(** A council whose ranking stage raises. *)
Definition ranking_down : World := {|
  generate_conversation_title := λ _, Ok "Greeting";
  stage1_collect_responses := λ _, Ok (JArr [JObj [("model", JStr "m1")]]);
  stage2_collect_rankings := λ _ _, Raise (Exception "RuntimeError" "boom");
  calculate_aggregate_rankings := λ _ _, Ok (JArr []);
  stage3_synthesize_final := λ _ _ _, Ok (JObj [("model", JStr "chairman")]);
  run_full_council := λ _, Raise (Exception "RuntimeError" "boom");
  storage_fault := λ _, None;
|}.

Definition new_conversation : Storage.conversation :=
  {| Storage.title := "New Conversation"; Storage.messages := [] |}.

Definition start : state :=
  {| store := {[ "c1" := new_conversation ]}; trace := [] |}.

(** Where the runs from [start] with the message [hello] end. *)
Definition calm_stream_end : state :=
  (event_generator_try (W := calm) "c1" "hello" true start).2.

Definition calm_blocking_end : state :=
  (send_message (W := calm) "c1" "hello" start).2.

Definition calm_response : json :=
  JObj [("stage1", JArr [JObj [("model", JStr "m1")]]);
        ("stage2", JArr []);
        ("stage3", JObj [("model", JStr "chairman")]);
        ("metadata", JObj [])].

Definition ranking_down_try_end : state :=
  (event_generator_try (W := ranking_down) "c1" "hello" true start).2.

Definition boom : exn := Exception "RuntimeError" "boom".

(** A council whose title generation raises. *)
Definition title_down : World := {|
  generate_conversation_title := λ _, Raise boom;
  stage1_collect_responses := λ _, Ok (JArr [JObj [("model", JStr "m1")]]);
  stage2_collect_rankings := λ _ _, Ok (JArr [], JObj [("Response A", JStr "m1")]);
  calculate_aggregate_rankings := λ _ _, Ok (JArr []);
  stage3_synthesize_final := λ _ _ _, Ok (JObj [("model", JStr "chairman")]);
  run_full_council := λ _,
    Ok (JArr [JObj [("model", JStr "m1")]], JArr [],
        JObj [("model", JStr "chairman")], JObj []);
  storage_fault := λ _, None;
|}.

(** A council whose final stage returns text where a dict is expected. *)
Definition stage3_text : World := {|
  generate_conversation_title := λ _, Ok "Greeting";
  stage1_collect_responses := λ _, Ok (JArr [JObj [("model", JStr "m1")]]);
  stage2_collect_rankings := λ _ _, Ok (JArr [], JObj [("Response A", JStr "m1")]);
  calculate_aggregate_rankings := λ _ _, Ok (JArr []);
  stage3_synthesize_final := λ _ _ _, Ok (JStr "final answer");
  run_full_council := λ _,
    Ok (JArr [JObj [("model", JStr "m1")]], JArr [], JStr "final answer",
        JObj []);
  storage_fault := λ _, None;
|}.

(** A conversation that already holds an exchange, beside a new one. *)
Definition old_conversation : Storage.conversation :=
  {| Storage.title := "Earlier";
     Storage.messages :=
       [ Storage.UserMessage "hi";
         Storage.AssistantMessage (JArr []) (JArr []) (JObj []) ] |}.

Definition two_conversations : state :=
  {| store := {[ "c1" := new_conversation; "c2" := old_conversation ]};
     trace := [] |}.

Definition response_302 (body : json) : response :=
  {| status_code := 302; text := "Found"; json_body := Ok body |}.

Definition body_numeric_content : json :=
  JObj [("choices", JArr [JObj [("message", JObj [("content", JNum 5)])]])].

Definition body_error_message : json :=
  JObj [("error", JObj [("message", JStr "quota exceeded"); ("code", JNum 429)])].

Definition response_429 : response :=
  {| status_code := 429; text := EmptyString; json_body := Ok body_error_message |}.

(** A network on which every call is answered. *)
Definition all_calls_answer (i : nat) (_ : request) : exc response :=
  Ok (response_200 body_text).

Definition ranking_down_blocking_end : state :=
  (send_message (W := ranking_down) "c1" "hello" start).2.

End Examples.

(** * Dictionaries *)

Section dict_facts.
Import Py.
Context {K V : Type} `{EqDecision K}.
Implicit Types (d items : list (K * V)) (k : K) (v : V).

Lemma dict_set_fresh k v d : k ∉ keys d → dict_set k v d = d ++ [(k, v)].
Proof.
  induction d as [|[k' v'] d IH]; simpl; [done|].
  intros Hk. apply not_elem_of_cons in Hk as [Hne Hk].
  case_decide; [done|]. by rewrite IH.
Qed.

Lemma elem_of_keys_dict_set k k' v d :
  k' ∈ keys (dict_set k v d) ↔ k' = k ∨ k' ∈ keys d.
Proof.
  induction d as [|[k0 v0] d IH]; simpl.
  - rewrite list_elem_of_singleton, elem_of_nil. tauto.
  - case_decide; simpl; rewrite !elem_of_cons; [subst; tauto|].
    unfold keys in IH. rewrite IH. tauto.
Qed.

Lemma NoDup_keys_dict_set k v d :
  NoDup (keys d) → NoDup (keys (dict_set k v d)).
Proof.
  induction d as [|[k0 v0] d IH]; simpl.
  - intros _. apply NoDup_singleton.
  - rewrite NoDup_cons. intros [Hk0 Hd].
    case_decide; simpl; apply NoDup_cons; [by subst|].
    split; [|by apply IH].
    fold (keys (dict_set k v d)). rewrite elem_of_keys_dict_set.
    intros [->|?]; done.
Qed.

Lemma dict_get_dict_set k k' v d :
  dict_get k (dict_set k' v d) = if decide (k = k') then Some v else dict_get k d.
Proof.
  induction d as [|[k0 v0] d IH]; simpl.
  - by repeat case_decide.
  - repeat (case_decide; simpl; subst); try done.
    all: rewrite IH; by repeat case_decide.
Qed.

Lemma dict_of_items_snoc items k v :
  dict_of_items (items ++ [(k, v)]) = dict_set k v (dict_of_items items).
Proof. unfold dict_of_items. by rewrite foldl_snoc. Qed.

Lemma dict_of_items_NoDup items :
  NoDup (keys items) → dict_of_items items = items.
Proof.
  induction items as [|[k v] items IH] using rev_ind; [done|].
  unfold keys. rewrite fmap_app. simpl.
  intros [Hitems [Hk _]]%NoDup_app.
  rewrite dict_of_items_snoc, IH by done.
  apply dict_set_fresh. intros Hin. apply (Hk k Hin). by left.
Qed.

Lemma elem_of_keys_dict_of_items items k :
  k ∈ keys (dict_of_items items) ↔ k ∈ keys items.
Proof.
  induction items as [|[k0 v0] items IH] using rev_ind; [done|].
  rewrite dict_of_items_snoc, elem_of_keys_dict_set, IH.
  unfold keys. rewrite fmap_app, elem_of_app. simpl.
  rewrite list_elem_of_singleton. tauto.
Qed.

Lemma NoDup_keys_dict_of_items items : NoDup (keys (dict_of_items items)).
Proof.
  induction items as [|[k0 v0] items IH] using rev_ind; [apply NoDup_nil_2|].
  rewrite dict_of_items_snoc. by apply NoDup_keys_dict_set.
Qed.

Lemma dict_get_dict_of_items_last items1 k v items2 :
  k ∉ keys items2 →
  dict_get k (dict_of_items (items1 ++ (k, v) :: items2)) = Some v.
Proof.
  induction items2 as [|[k0 v0] items2 IH] using rev_ind; intros Hk.
  - rewrite dict_of_items_snoc, dict_get_dict_set. by case_decide.
  - unfold keys in Hk. rewrite fmap_app, not_elem_of_app in Hk.
    destruct Hk as [Hk Hk0]. simpl in Hk0.
    rewrite not_elem_of_cons in Hk0. destruct Hk0 as [Hne _].
    replace (items1 ++ (k, v) :: items2 ++ [(k0, v0)])
      with ((items1 ++ (k, v) :: items2) ++ [(k0, v0)])
      by (by rewrite <- app_assoc).
    rewrite dict_of_items_snoc, dict_get_dict_set.
    case_decide; [done|]. by apply IH.
Qed.
End dict_facts.


(** * The gateway *)
Section gateway_facts.
Import Py Openrouter.
Variable key : option string.
Variable str : json → string.

Lemma query_model_total post model messages timeout :
  ∃ r, query_model key str post model messages timeout = Ok r.
Proof.
  unfold query_model, try_except.
  destruct (query_model_try key str post model messages timeout); eauto.
Qed.

Lemma query_model_try_ok post model messages timeout r :
  query_model_try key str post model messages timeout = Ok r →
  query_model key str post model messages timeout = Ok r.
Proof. unfold query_model, try_except. by intros ->. Qed.

Lemma query_model_try_raise post model messages timeout e :
  query_model_try key str post model messages timeout = Raise e →
  query_model key str post model messages timeout = Ok None.
Proof. unfold query_model, try_except. by intros ->. Qed.

Lemma query_model_http_error post model messages timeout resp :
  post (chat_request key model messages timeout) = Ok resp →
  (400 ≤ status_code resp)%Z →
  query_model key str post model messages timeout = Ok None.
Proof.
  intros Hpost Hst. unfold query_model, query_model_try. rewrite Hpost. simpl.
  destruct (400 <=? status_code resp)%Z eqn:Hle; [|lia].
  by destruct (_extract_error_message str resp).
Qed.

(** What the [try] block does with a response below 400 whose body
    decodes to an object holding a non-empty list of choices. *)
Lemma query_model_try_choices post model messages timeout resp data c rest :
  post (chat_request key model messages timeout) = Ok resp →
  (status_code resp < 400)%Z →
  json_body resp = Ok (JObj data) →
  dict_get "choices" data = Some (JArr (c :: rest)) →
  query_model_try key str post model messages timeout =
    (message ← py_get c "message" (JObj []);
     usage ← py_get (JObj data) "usage" (JObj []);
     _ ← py_get usage "completion_tokens" (JStr "n/a");
     _ ← py_get usage "total_tokens" (JStr "n/a");
     _ ← py_get c "finish_reason" (JStr "unknown");
     content ← py_get message "content" JNull;
     reasoning_details ← py_get message "reasoning_details" JNull;
     _ ← py_len (py_or content (JStr EmptyString));
     Ok (Some {| content := content;
                 reasoning_details := reasoning_details |})).
Proof.
  intros Hpost Hst Hbody Hch. unfold query_model_try. rewrite Hpost. simpl.
  destruct (400 <=? status_code resp)%Z eqn:Hle; [lia|].
  rewrite Hbody. simpl. rewrite Hch. reflexivity.
Qed.

Lemma py_len_text content :
  content = JNull ∨ (∃ s, content = JStr s) →
  ∃ n, py_len (py_or content (JStr EmptyString)) = Ok n.
Proof.
  intros [->|[s ->]]; [by eexists|].
  unfold py_or. destruct (truthy (JStr s)); by eexists.
Qed.

Lemma query_model_well_formed post model messages timeout
    resp data c rest message usage :
  post (chat_request key model messages timeout) = Ok resp →
  (status_code resp < 400)%Z →
  json_body resp = Ok (JObj data) →
  dict_get "choices" data = Some (JArr (JObj c :: rest)) →
  from_option id (JObj []) (dict_get "message" c) = JObj message →
  from_option id (JObj []) (dict_get "usage" data) = JObj usage →
  (∃ n, py_len (py_or (from_option id JNull (dict_get "content" message))
                  (JStr EmptyString)) = Ok n) →
  query_model key str post model messages timeout =
    Ok (Some {| content := from_option id JNull (dict_get "content" message);
                reasoning_details :=
                  from_option id JNull (dict_get "reasoning_details" message) |}).
Proof.
  intros Hpost Hst Hbody Hch Hmsg Husage [n Hlen].
  apply query_model_try_ok.
  rewrite (query_model_try_choices _ _ _ _ _ _ _ _ Hpost Hst Hbody Hch).
  simpl. rewrite Hmsg. simpl. rewrite Husage. simpl. by rewrite Hlen.
Qed.

(** C3. [query_model] never raises: every call returns, and it returns
    [None] when the status is 400 or more, when the list of choices is
    absent or empty, when the transport raises (connection error,
    timeout), when the body does not decode, and whenever anything else in
    the request raises. *)
Theorem query_model_never_raises post model messages timeout :
  (∃ r, query_model key str post model messages timeout = Ok r) ∧
  (∀ resp,
     post (chat_request key model messages timeout) = Ok resp →
     (400 ≤ status_code resp)%Z →
     query_model key str post model messages timeout = Ok None) ∧
  (∀ resp data,
     post (chat_request key model messages timeout) = Ok resp →
     (status_code resp < 400)%Z →
     json_body resp = Ok (JObj data) →
     dict_get "choices" data = None ∨
       dict_get "choices" data = Some (JArr []) →
     query_model key str post model messages timeout = Ok None) ∧
  (∀ e,
     post (chat_request key model messages timeout) = Raise e →
     query_model key str post model messages timeout = Ok None) ∧
  (∀ resp e,
     post (chat_request key model messages timeout) = Ok resp →
     json_body resp = Raise e →
     query_model key str post model messages timeout = Ok None) ∧
  (∀ e,
     query_model_try key str post model messages timeout = Raise e →
     query_model key str post model messages timeout = Ok None).
Proof.
  split; [apply query_model_total|].
  split; [apply query_model_http_error|].
  split.
  { intros resp data Hpost Hst Hbody Hch.
    unfold query_model, query_model_try. rewrite Hpost. simpl.
    destruct (400 <=? status_code resp)%Z eqn:Hle; [lia|].
    rewrite Hbody. simpl. by destruct Hch as [-> | ->]. }
  split.
  { intros e Hpost. apply (query_model_try_raise _ _ _ _ e).
    unfold query_model_try. by rewrite Hpost. }
  split; [|apply query_model_try_raise].
  intros resp e Hpost Hbody.
  destruct (Z_lt_le_dec (status_code resp) 400) as [Hst|Hst];
    [|by eapply query_model_http_error].
  apply (query_model_try_raise _ _ _ _ e).
  unfold query_model_try. rewrite Hpost. simpl.
  destruct (400 <=? status_code resp)%Z eqn:Hle; [lia|].
  by rewrite Hbody.
Qed.

(** C4, as the code has it.  A response below 400 with a non-empty list of
    choices whose first message holds no content (the key is absent or its
    value is null; the message itself may be absent) gives a result that
    is not [None]: a dict whose content is [None], with the reasoning
    details of the message; the fan-out counts it as a success. *)
Theorem query_model_content_absent post model messages timeout
    resp data c rest message usage :
  post (chat_request key model messages timeout) = Ok resp →
  (status_code resp < 400)%Z →
  json_body resp = Ok (JObj data) →
  dict_get "choices" data = Some (JArr (JObj c :: rest)) →
  from_option id (JObj []) (dict_get "message" c) = JObj message →
  from_option id (JObj []) (dict_get "usage" data) = JObj usage →
  dict_get "content" message = None ∨
    dict_get "content" message = Some JNull →
  ∃ r,
    query_model key str post model messages timeout = Ok (Some r) ∧
    content r = JNull ∧
    reasoning_details r =
      from_option id JNull (dict_get "reasoning_details" message) ∧
    success_count [Some r] = 1%nat.
Proof.
  intros Hpost Hst Hbody Hch Hmsg Husage Hcontent.
  assert (from_option id JNull (dict_get "content" message) = JNull) as Hc
    by (by destruct Hcontent as [-> | ->]).
  eexists. split; [|split; [|split]]; last reflexivity.
  - eapply query_model_well_formed; eauto. rewrite Hc. by eexists.
  - exact Hc.
  - reflexivity.
Qed.

(** C7, as the code has it.  A response below 400 whose body is an object
    with a non-empty list of choices, the first an object whose message is
    an object or absent, whose usage is an object or absent and whose
    content is text or null or absent, gives a result that is not [None]:
    its content is the content of the first message and its reasoning
    details are those of the message, [None] when the message has none.
    The empty text is a content like any other. *)
Theorem query_model_success post model messages timeout
    resp data c rest message usage :
  post (chat_request key model messages timeout) = Ok resp →
  (status_code resp < 400)%Z →
  json_body resp = Ok (JObj data) →
  dict_get "choices" data = Some (JArr (JObj c :: rest)) →
  from_option id (JObj []) (dict_get "message" c) = JObj message →
  from_option id (JObj []) (dict_get "usage" data) = JObj usage →
  from_option id JNull (dict_get "content" message) = JNull ∨
    (∃ s, dict_get "content" message = Some (JStr s)) →
  query_model key str post model messages timeout =
    Ok (Some {| content := from_option id JNull (dict_get "content" message);
                reasoning_details :=
                  from_option id JNull (dict_get "reasoning_details" message) |}).
Proof.
  intros Hpost Hst Hbody Hch Hmsg Husage Hcontent.
  eapply query_model_well_formed; eauto.
  apply py_len_text. destruct Hcontent as [->|[s ->]]; eauto.
Qed.
End gateway_facts.


(** * The fan-out *)

Section gather_facts.
Import Py Openrouter.
Context {A : Type}.
Implicit Types (rs : list A) (schedule : list nat).

Lemma complete_all_ok rs schedule : ∀ slots,
  length slots = length rs →
  ∃ slots',
    complete (Ok <$> rs) schedule slots = Ok slots' ∧
    length slots' = length rs ∧
    ∀ i, slots' !! i =
           if decide (i ∈ schedule) then Some <$> rs !! i else slots !! i.
Proof.
  induction schedule as [|i rest IH]; intros slots Hlen; cbn [complete].
  - exists slots. split; [done|]. split; [done|].
    intros i. by destruct (decide (i ∈ [])) as [?%elem_of_nil|].
  - rewrite list_lookup_fmap.
    destruct (rs !! i) as [r|] eqn:Hi; cbn [fmap option_fmap option_map mbind exc_mbind exc_bind].
    + destruct (IH (<[i := Some r]> slots)) as (slots' & Hc & Hl & Hlook);
        [by rewrite length_insert|].
      exists slots'. split; [done|]. split; [done|].
      intros j. rewrite Hlook.
      destruct (decide (j = i)) as [->|Hne].
      * rewrite (decide_True (P := i ∈ i :: rest)) by by left.
        case_decide; [done|].
        rewrite list_lookup_insert_eq, Hi; [done|].
        rewrite Hlen. by eapply lookup_lt_Some.
      * rewrite list_lookup_insert_ne by done.
        destruct (decide (j ∈ rest)) as [Hr|Hr],
          (decide (j ∈ i :: rest)) as [Hc'|Hc']; try done; exfalso;
          [apply Hc'; by right|by apply elem_of_cons in Hc' as [?|?]].
    + destruct (IH slots Hlen) as (slots' & Hc & Hl & Hlook).
      exists slots'. split; [done|]. split; [done|].
      intros j. rewrite Hlook.
      destruct (decide (j = i)) as [->|Hne].
      * rewrite (decide_True (P := i ∈ i :: rest)) by by left.
        case_decide; [done|]. rewrite Hi. simpl.
        apply lookup_ge_None. rewrite Hlen. by apply lookup_ge_None.
      * destruct (decide (j ∈ rest)) as [Hr|Hr],
          (decide (j ∈ i :: rest)) as [Hc'|Hc']; try done; exfalso;
          [apply Hc'; by right|by apply elem_of_cons in Hc' as [?|?]].
Qed.

Lemma gather_all_ok rs schedule :
  schedule ≡ₚ seq 0 (length rs) →
  gather (Ok <$> rs) schedule = Some (Ok rs).
Proof.
  intros Hperm. unfold gather. rewrite length_fmap.
  destruct (complete_all_ok rs schedule (replicate (length rs) None))
    as (slots' & -> & Hl & Hlook); [by rewrite length_replicate|].
  assert (slots' = Some <$> rs) as ->.
  { apply list_eq. intros i. rewrite Hlook, list_lookup_fmap.
    case_decide as Hin; [done|].
    destruct (rs !! i) eqn:Hi; simpl.
    - exfalso. apply Hin. rewrite Hperm. apply elem_of_seq.
      apply lookup_lt_Some in Hi. lia.
    - apply lookup_ge_None. rewrite length_replicate.
      by apply lookup_ge_None. }
  by rewrite mapM_fmap_Some.
Qed.
End gather_facts.

Section fan_out_facts.
Import Py Openrouter.
Variable key : option string.
Variable str : json → string.
Variable posts : nat → request → exc response.
Variable messages : list chat_message.

Lemma tasks_all_ok (models : list string) :
  imap (λ i model, query_model key str (posts i) model messages default_timeout)
    models
  = Ok <$> imap (response_of key str posts messages) models.
Proof.
  rewrite fmap_imap. apply imap_ext. intros i model _. simpl.
  unfold response_of.
  by destruct (query_model_total key str (posts i) model messages
                 default_timeout) as [r ->].
Qed.

Lemma query_models_parallel_returns schedule (models : list string) :
  schedule ≡ₚ seq 0 (length models) →
  query_models_parallel key str posts schedule models messages =
    Some (Ok (dict_of_items
                (zip models (imap (response_of key str posts messages) models)))).
Proof.
  intros Hperm. unfold query_models_parallel.
  rewrite tasks_all_ok, gather_all_ok; [done|].
  by rewrite length_imap.
Qed.

Lemma response_of_ok i model r :
  query_model key str (posts i) model messages default_timeout = Ok r →
  response_of key str posts messages i model = r.
Proof. unfold response_of. by intros ->. Qed.

(** C2. For distinct model ids and any completion order, the mapping has
    one entry per id, in the order of the input: its [i]-th entry is the
    [i]-th id with what the [i]-th call returned, [None] for a call that
    failed. *)
Theorem query_models_parallel_ordered schedule (models : list string) :
  NoDup models →
  schedule ≡ₚ seq 0 (length models) →
  ∃ result,
    query_models_parallel key str posts schedule models messages
      = Some (Ok result) ∧
    keys result = models ∧
    length result = length models ∧
    (∀ i model, models !! i = Some model →
       ∃ r, query_model key str (posts i) model messages default_timeout = Ok r ∧
            result !! i = Some (model, r)) ∧
    (∀ i model, models !! i = Some model →
       query_model key str (posts i) model messages default_timeout = Ok None →
       result !! i = Some (model, None) ∧ dict_get model result = Some None).
Proof.
  intros Hnodup Hperm. eexists. split; [by apply query_models_parallel_returns|].
  set (responses := imap (response_of key str posts messages) models).
  assert (length responses = length models) as Hlen
    by apply length_imap.
  assert (keys (zip models responses) = models) as Hkeys
    by (apply fst_zip; lia).
  rewrite dict_of_items_NoDup by (by rewrite Hkeys).
  assert (∀ i model, models !! i = Some model →
            zip models responses !! i
            = Some (model, response_of key str posts messages i model)) as Hentry.
  { intros i model Hi. apply lookup_zip_Some. split; [done|].
    unfold responses. by rewrite list_lookup_imap, Hi. }
  split; [done|]. split; [rewrite length_zip; lia|]. split.
  - intros i model Hi.
    destruct (query_model_total key str (posts i) model messages
                default_timeout) as [r Hr].
    exists r. split; [done|]. by rewrite (Hentry _ _ Hi), (response_of_ok _ _ _ Hr).
  - intros i model Hi Hr.
    pose proof (Hentry _ _ Hi) as He. rewrite (response_of_ok _ _ _ Hr) in He.
    split; [done|].
    apply list_elem_of_split_length in He as (l1 & l2 & Hz & _).
    rewrite <- (dict_of_items_NoDup (zip models responses)) by (by rewrite Hkeys).
    rewrite Hz. apply dict_get_dict_of_items_last.
    rewrite <- Hkeys, Hz in Hnodup. unfold keys in *.
    rewrite fmap_app, fmap_cons in Hnodup.
    apply NoDup_app in Hnodup as (_ & _ & Hnodup).
    by apply NoDup_cons in Hnodup as [? _].
Qed.

(** C9. With duplicate model ids the mapping has one entry per distinct
    id, holding what the call of the last occurrence returned; it has as
    many entries as there are distinct ids, and as many as the input is
    long exactly when the ids are distinct. *)
Theorem query_models_parallel_duplicates schedule (models : list string) :
  schedule ≡ₚ seq 0 (length models) →
  ∃ result,
    query_models_parallel key str posts schedule models messages
      = Some (Ok result) ∧
    NoDup (keys result) ∧
    (∀ model, model ∈ keys result ↔ model ∈ models) ∧
    length result = length (remove_dups models) ∧
    (∀ i model r,
       models !! i = Some model →
       (∀ j, i < j → models !! j ≠ Some model) →
       query_model key str (posts i) model messages default_timeout = Ok r →
       dict_get model result = Some r) ∧
    (length result = length models ↔ NoDup models).
Proof.
  intros Hperm. eexists. split; [by apply query_models_parallel_returns|].
  set (responses := imap (response_of key str posts messages) models).
  assert (length responses = length models) as Hlen
    by apply length_imap.
  assert (keys (zip models responses) = models) as Hkeys
    by (apply fst_zip; lia).
  set (result := dict_of_items (zip models responses)).
  assert (NoDup (keys result)) as Hnd by apply NoDup_keys_dict_of_items.
  assert (∀ model, model ∈ keys result ↔ model ∈ models) as Hel.
  { intros model. unfold result.
    by rewrite elem_of_keys_dict_of_items, Hkeys. }
  assert (keys result ≡ₚ remove_dups models) as Hp.
  { apply NoDup_Permutation; [done|apply NoDup_remove_dups|].
    intros model. by rewrite Hel, elem_of_remove_dups. }
  assert (length result = length (remove_dups models)) as Hlr.
  { rewrite <- Hp. unfold keys. by rewrite length_fmap. }
  split; [done|]. split; [done|]. split; [done|]. split.
  - intros i model r Hi Hlast Hr.
    assert (zip models responses !! i = Some (model, r)) as He.
    { apply lookup_zip_Some. split; [done|]. unfold responses.
      by rewrite list_lookup_imap, Hi, <- (response_of_ok _ _ _ Hr). }
    apply list_elem_of_split_length in He as (l1 & l2 & Hz & Hi1).
    unfold result. rewrite Hz. apply dict_get_dict_of_items_last.
    intros [j Hj]%list_elem_of_lookup.
    apply (Hlast (i + S j)); [lia|].
    rewrite <- Hkeys, Hz. unfold keys in *.
    rewrite fmap_app, fmap_cons, lookup_app_r;
      rewrite length_fmap, <- Hi1; [|lia].
    by replace (i + S j - i) with (S j) by lia.
  - rewrite Hlr. split.
    + intros Heq.
      rewrite <- (submseteq_length_Permutation (remove_dups models) models).
      * apply NoDup_remove_dups.
      * apply NoDup_submseteq; [apply NoDup_remove_dups|].
        intros model. by rewrite elem_of_remove_dups.
      * lia.
    + intros Hnodup. apply Permutation_length, NoDup_Permutation;
        [apply NoDup_remove_dups|done|apply elem_of_remove_dups].
Qed.
End fan_out_facts.


(** * The message endpoints *)

Section main_facts.
Import Py Main.
Context `{World}.

Ltac unfold_run :=
  unfold event_generator_try, send_message, get_conversation,
    Storage.get_conversation, storage_write,
    Storage.add_user_message, Storage.update_conversation_title,
    Storage.add_assistant_message, Storage.update,
    await, create_task, await_task, yield, act, lift, raise,
    mbind, M_mbind, M_bind, mret, M_mret, M_ret.

Ltac split_run :=
  repeat match goal with
  | |- context [match ?x with _ => _ end] =>
      lazymatch x with
      | context [match _ with _ => _ end] => fail
      | _ => destruct x eqn:?
      end; cbn; rewrite ?lookup_insert_eq
  end.

Ltac use_equation :=
  match goal with
  | Heq : ?x = _ |- context [?x] => rewrite Heq
  end.

Ltac solve_trace :=
  cbn; rewrite <- ?app_assoc; cbn;
  first [reflexivity | symmetry; apply app_nil_r | by rewrite app_nil_r].

(** Every run of the [try] block of [event_generator], by its outcome. *)
Lemma event_generator_try_run cid content b σ conv r σ1 :
  store σ !! cid = Some conv →
  event_generator_try cid content b σ = (r, σ1) →
  ∃ new conv1,
    trace σ1 = trace σ ++ new ∧
    store σ1 !! cid = Some conv1 ∧
    Storage.messages conv1 = Storage.messages conv ++ appended new ∧
    match r with
    | Ok _ =>
        ∃ title s1 s2 l2m agg s3,
          (b = true → generate_conversation_title content = Ok title) ∧
          stage1_collect_responses content = Ok s1 ∧
          stage2_collect_rankings content s1 = Ok (s2, l2m) ∧
          calculate_aggregate_rankings s2 l2m = Ok agg ∧
          stage3_synthesize_final content s1 s2 = Ok s3 ∧
          new = actions_before_persisting cid content b title s1 s2 l2m agg s3
                ++ [Stored (AddAssistantMessage cid s1 s2 s3);
                    Yield (event "complete" [])]
    | Raise e =>
        ∃ title s1 s2 l2m agg s3 rest,
          new ++ rest =
            actions_before_persisting cid content b title s1 s2 l2m agg s3
    end.
Proof.
  intros Hconv.
  unfold_run. cbn. rewrite Hconv.
  destruct b; split_run; intros [= <- <-].
  all: eexists _, _; split; [solve_trace|];
    (split; [first [apply lookup_insert_eq | exact Hconv]|]);
    (split; [solve_trace|]).
  all: try (eexists _, _, _, _, _, _, _; cbn; reflexivity).
  all: try (eexists _, _, _, _, _, _; repeat split; eauto; done).
  Unshelve. all: first [exact JNull | exact EmptyString].
Qed.

Lemma send_message_stream_run cid content σ conv :
  store σ !! cid = Some conv →
  send_message_stream cid content σ =
    event_generator cid content (is_empty (Storage.messages conv)) σ.
Proof.
  intros Hconv. unfold send_message_stream, get_conversation,
    Storage.get_conversation, mbind, M_mbind, M_bind.
  by rewrite Hconv.
Qed.

Lemma event_generator_ok cid content b σ σ1 :
  event_generator_try cid content b σ = (Ok (), σ1) →
  event_generator cid content b σ = (Ok (), σ1).
Proof. unfold event_generator, try_except. by intros ->. Qed.

Lemma event_generator_raise cid content b σ e σ1 :
  event_generator_try cid content b σ = (Raise e, σ1) →
  event_generator cid content b σ =
    (Ok (), {| store := store σ1;
               trace := trace σ1
                        ++ [Yield (event "error" [("message", JStr (str_exn e))])] |}).
Proof. unfold event_generator, try_except. by intros ->. Qed.

Lemma events_app tr1 tr2 : events (tr1 ++ tr2) = events tr1 ++ events tr2.
Proof. apply omap_app. Qed.

(** No event of a run that has not yet persisted closes the stream. *)
Lemma events_before_persisting cid content b title s1 s2 l2m agg s3 :
  Forall (λ ev, event_type ev ≠ Some "error" ∧ event_type ev ≠ Some "complete")
    (events (actions_before_persisting cid content b title s1 s2 l2m agg s3)).
Proof. destruct b; cbn; repeat constructor; done. Qed.

Lemma no_assistant_write_before_persisting cid content b title s1 s2 l2m agg s3 :
  Forall (λ a, is_assistant_write a = false)
    (actions_before_persisting cid content b title s1 s2 l2m agg s3).
Proof. destruct b; cbn; repeat constructor. Qed.

(** C1. A run of the streaming endpoint in whose [try] block nothing raises
    emits exactly these events, in this order: [stage1_start],
    [stage1_complete] with the data of stage 1, [stage2_start],
    [stage2_complete] with the rankings, the label-to-model map and the
    aggregate rankings, [stage3_start], [stage3_complete] with the final
    answer, then [title_complete] when and only when the conversation had
    no message before, then [complete]. *)
Theorem stream_events_in_order cid content σ conv σ1 :
  store σ !! cid = Some conv →
  event_generator_try cid content (is_empty (Storage.messages conv)) σ
    = (Ok (), σ1) →
  ∃ new stage1 stage2 label_to_model aggregate stage3 title_events,
    send_message_stream cid content σ = (Ok (), σ1) ∧
    trace σ1 = trace σ ++ new ∧
    stage1_collect_responses content = Ok stage1 ∧
    stage2_collect_rankings content stage1 = Ok (stage2, label_to_model) ∧
    calculate_aggregate_rankings stage2 label_to_model = Ok aggregate ∧
    stage3_synthesize_final content stage1 stage2 = Ok stage3 ∧
    (if is_empty (Storage.messages conv)
     then ∃ title,
            generate_conversation_title content = Ok title ∧
            title_events =
              [event "title_complete" [("data", JObj [("title", JStr title)])]]
     else title_events = []) ∧
    events new =
      [ event "stage1_start" [];
        event "stage1_complete" [("data", stage1)];
        event "stage2_start" [];
        event "stage2_complete"
          [("data", stage2);
           ("metadata", JObj [("label_to_model", label_to_model);
                              ("aggregate_rankings", aggregate)])];
        event "stage3_start" [];
        event "stage3_complete" [("data", stage3)] ]
      ++ title_events ++ [event "complete" []].
Proof.
  intros Hconv Hrun.
  destruct (event_generator_try_run _ _ _ _ _ _ _ Hconv Hrun)
    as (new & conv1 & Htrace & _ & _ & title & s1 & s2 & l2m & agg & s3
        & Htitle & Hs1 & Hs2 & Hagg & Hs3 & ->).
  exists (actions_before_persisting cid content
            (is_empty (Storage.messages conv)) title s1 s2 l2m agg s3
          ++ [Stored (AddAssistantMessage cid s1 s2 s3);
              Yield (event "complete" [])]),
    s1, s2, l2m, agg, s3.
  destruct (is_empty (Storage.messages conv)) eqn:Hfirst.
  - exists [event "title_complete" [("data", JObj [("title", JStr title)])]].
    split.
    { rewrite (send_message_stream_run _ _ _ _ Hconv), Hfirst.
      by apply event_generator_ok. }
    repeat (split; [done|]). split; [eauto|reflexivity].
  - exists []. split.
    { rewrite (send_message_stream_run _ _ _ _ Hconv), Hfirst.
      by apply event_generator_ok. }
    repeat (split; [done|]). reflexivity.
Qed.

(** C6. When an exception is raised in the [try] block of the streaming
    endpoint, the events of the run are those emitted before it, none of
    them an [error] or a [complete] event, followed by one [error] event
    that carries [str(e)]; the stream ends with it. *)
Theorem stream_error_is_last cid content σ conv e σ1 :
  store σ !! cid = Some conv →
  event_generator_try cid content (is_empty (Storage.messages conv)) σ
    = (Raise e, σ1) →
  ∃ σ2 new emitted,
    send_message_stream cid content σ = (Ok (), σ2) ∧
    trace σ2 = trace σ ++ new ∧
    events new = emitted ++ [event "error" [("message", JStr (str_exn e))]] ∧
    Forall (λ ev, event_type ev ≠ Some "error" ∧ event_type ev ≠ Some "complete")
      emitted.
Proof.
  intros Hconv Hrun.
  destruct (event_generator_try_run _ _ _ _ _ _ _ Hconv Hrun)
    as (new & conv1 & Htrace & _ & _ & title & s1 & s2 & l2m & agg & s3
        & rest & Hprefix).
  eexists _, (new ++ [Yield (event "error" [("message", JStr (str_exn e))])]),
    (events new).
  split; [|split; [|split]].
  - rewrite (send_message_stream_run _ _ _ _ Hconv).
    by apply event_generator_raise.
  - cbn. by rewrite Htrace, <- app_assoc.
  - by rewrite events_app.
  - pose proof (events_before_persisting cid content
      (is_empty (Storage.messages conv)) title s1 s2 l2m agg s3) as Hall.
    rewrite <- Hprefix, events_app in Hall.
    by apply Forall_app in Hall as [? _].
Qed.

Lemma stored_before_yield w l pre ev post :
  Stored w :: l = pre ++ Yield ev :: post → Stored w ∈ pre.
Proof. destruct pre as [|a pre]; intros [= ]; subst. by left. Qed.

Lemma appended_before_persisting cid content b title s1 s2 l2m agg s3 :
  appended (actions_before_persisting cid content b title s1 s2 l2m agg s3)
  = [Storage.UserMessage content].
Proof. by destruct b. Qed.

Lemma appended_app tr1 tr2 : appended (tr1 ++ tr2) = appended tr1 ++ appended tr2.
Proof. apply omap_app. Qed.

(** What a run that raised has appended: nothing, or the user message. *)
Lemma appended_prefix cid content b title s1 s2 l2m agg s3 new rest :
  new ++ rest = actions_before_persisting cid content b title s1 s2 l2m agg s3 →
  (new = [] ∧ appended new = []) ∨
  (∃ new', new = Stored (AddUserMessage cid content) :: new' ∧
           appended new = [Storage.UserMessage content]).
Proof.
  intros Hprefix.
  pose proof (appended_before_persisting cid content b title s1 s2 l2m agg s3)
    as Happ.
  rewrite <- Hprefix in Happ.
  destruct new as [|a new']; [by left|right].
  unfold actions_before_persisting in Hprefix.
  injection Hprefix as -> Hrest. exists new'. split; [done|].
  cbn in Happ. injection Happ as Happ.
  rewrite omap_app in Happ. apply app_eq_nil in Happ as [Hnew _].
  cbn. by rewrite Hnew.
Qed.

(** C10. In every run of the streaming endpoint the user message is stored
    before any event other than [error] is emitted.  When nothing raises,
    the assistant message is stored once, after [stage3_complete] and the
    title handling and right before [complete].  When the [error] event is
    emitted, no assistant message has been stored, and the user message,
    if it was stored, is still in the conversation. *)
Theorem stream_persistence cid content σ conv r σ1 :
  store σ !! cid = Some conv →
  event_generator_try cid content (is_empty (Storage.messages conv)) σ
    = (r, σ1) →
  ∃ σ2 new conv2,
    send_message_stream cid content σ = (Ok (), σ2) ∧
    trace σ2 = trace σ ++ new ∧
    store σ2 !! cid = Some conv2 ∧
    (∀ pre ev post,
       new = pre ++ Yield ev :: post →
       event_type ev ≠ Some "error" →
       Stored (AddUserMessage cid content) ∈ pre) ∧
    match r with
    | Ok _ =>
        ∃ pre stage1 stage2 stage3,
          new = pre ++ [Stored (AddAssistantMessage cid stage1 stage2 stage3);
                        Yield (event "complete" [])] ∧
          Forall (λ a, is_assistant_write a = false) pre ∧
          Yield (event "stage3_complete" [("data", stage3)]) ∈ pre ∧
        (is_empty (Storage.messages conv) = true →
         ∃ title,
           Stored (UpdateConversationTitle cid title) ∈ pre ∧
           Yield (event "title_complete"
                    [("data", JObj [("title", JStr title)])]) ∈ pre) ∧
          Storage.messages conv2 =
            Storage.messages conv
            ++ [Storage.UserMessage content;
                Storage.AssistantMessage stage1 stage2 stage3]
    | Raise e =>
        ∃ before,
          new = before ++ [Yield (event "error" [("message", JStr (str_exn e))])] ∧
          Forall (λ a, is_assistant_write a = false) new ∧
          (Stored (AddUserMessage cid content) ∈ new →
           Storage.messages conv2 =
             Storage.messages conv ++ [Storage.UserMessage content]) ∧
          (Stored (AddUserMessage cid content) ∉ new →
           Storage.messages conv2 = Storage.messages conv)
    end.
Proof.
  intros Hconv Hrun.
  destruct (event_generator_try_run _ _ _ _ _ _ _ Hconv Hrun)
    as (new & conv1 & Htrace & Hconv1 & Hmsgs & Hr).
  rewrite (send_message_stream_run _ _ _ _ Hconv).
  destruct r as [[]|e].
  - destruct Hr as (title & s1 & s2 & l2m & agg & s3 & _ & _ & _ & _ & _ & ->).
    exists σ1. eexists _, conv1.
    split; [by apply event_generator_ok|].
    split; [done|]. split; [done|]. split.
    { intros pre ev post Heq _. unfold actions_before_persisting in Heq.
      rewrite <- app_comm_cons in Heq. by eapply stored_before_yield. }
    eexists _, s1, s2, s3. split; [done|].
    split; [apply no_assistant_write_before_persisting|]. split.
    { unfold actions_before_persisting, stage_actions.
      destruct (is_empty _); cbn; set_solver. }
    split.
    { intros Hfirst. rewrite Hfirst. exists title.
      unfold actions_before_persisting, stage_actions. cbn. set_solver. }
    rewrite Hmsgs, appended_app, appended_before_persisting. done.
  - destruct Hr as (title & s1 & s2 & l2m & agg & s3 & rest & Hprefix).
    eexists _, (new ++ [Yield (event "error" [("message", JStr (str_exn e))])]),
      conv1.
    split; [by apply event_generator_raise|].
    split; [cbn; by rewrite Htrace, <- app_assoc|].
    split; [done|].
    assert (Forall (λ a, is_assistant_write a = false) new) as Hnew.
    { pose proof (no_assistant_write_before_persisting cid content
        (is_empty (Storage.messages conv)) title s1 s2 l2m agg s3) as Hall.
      rewrite <- Hprefix in Hall. by apply Forall_app in Hall as [? _]. }
    destruct (appended_prefix _ _ _ _ _ _ _ _ _ _ _ Hprefix)
      as [[-> Happ]|(new' & -> & Happ)].
    + split.
      { intros pre ev post Heq Hev. exfalso. apply Hev.
        destruct pre as [|a [|??]]; by simplify_eq/=. }
      exists []. split; [done|]. split; [repeat constructor|].
      split; [|intros _; by rewrite Hmsgs, Happ, app_nil_r].
      intros Hin. by apply list_elem_of_singleton in Hin.
    + split.
      { intros pre ev post Heq _. rewrite <- app_comm_cons in Heq.
        by eapply stored_before_yield. }
      eexists. split; [done|]. split.
      { apply Forall_app. split; [done|]. repeat constructor. }
      split; [intros _; by rewrite Hmsgs, Happ|].
      intros Hnotin. exfalso. apply Hnotin. by left.
Qed.

(** Every run of [send_message] that returns. *)
Lemma send_message_returns cid content σ conv resp σ1 :
  store σ !! cid = Some conv →
  send_message cid content σ = (Ok resp, σ1) →
  ∃ s1 s2 s3 metadata,
    run_full_council content = Ok (s1, s2, s3, metadata) ∧
    resp = JObj [("stage1", s1); ("stage2", s2); ("stage3", s3);
                 ("metadata", metadata)] ∧
    if is_empty (Storage.messages conv)
    then ∃ title,
           generate_conversation_title content = Ok title ∧
           trace σ1 = trace σ ++
             [ Stored (AddUserMessage cid content);
               Await Title;
               Stored (UpdateConversationTitle cid title);
               Await FullCouncil;
               Stored (AddAssistantMessage cid s1 s2 s3) ]
    else trace σ1 = trace σ ++
             [ Stored (AddUserMessage cid content);
               Await FullCouncil;
               Stored (AddAssistantMessage cid s1 s2 s3) ].
Proof.
  intros Hconv.
  unfold_run. cbn. rewrite Hconv. cbn.
  destruct (is_empty (Storage.messages conv)); split_run;
    intros [= <- <-]; eexists _, _, _, _; (split; [done|]); (split; [done|]).
  - eexists. split; [done|]. solve_trace.
  - solve_trace.
Qed.

(** C5, as the code has it.  For the first message of a conversation, the
    streaming endpoint creates the title task right after storing the user
    message and before stage 1, and awaits it only after [stage3_complete],
    before the assistant message is stored.  The blocking endpoint awaits
    the title generation in line, after storing the user message and before
    the council runs, and stores the title before the council runs. *)
Theorem title_generation_order cid content σ conv σ1 resp σ1' :
  store σ !! cid = Some conv →
  Storage.messages conv = [] →
  event_generator_try cid content true σ = (Ok (), σ1) →
  send_message cid content σ = (Ok resp, σ1') →
  ∃ title stage1 stage2 label_to_model aggregate stage3
      stage1' stage2' stage3',
    generate_conversation_title content = Ok title ∧
    send_message_stream cid content σ = (Ok (), σ1) ∧
    trace σ1 = trace σ ++
      [ Stored (AddUserMessage cid content);
        CreateTask Title;
        Yield (event "stage1_start" []);
        Await Stage1;
        Yield (event "stage1_complete" [("data", stage1)]);
        Yield (event "stage2_start" []);
        Await Stage2;
        Yield (event "stage2_complete"
                 [("data", stage2);
                  ("metadata", JObj [("label_to_model", label_to_model);
                                     ("aggregate_rankings", aggregate)])]);
        Yield (event "stage3_start" []);
        Await Stage3;
        Yield (event "stage3_complete" [("data", stage3)]);
        AwaitTask Title;
        Stored (UpdateConversationTitle cid title);
        Yield (event "title_complete" [("data", JObj [("title", JStr title)])]);
        Stored (AddAssistantMessage cid stage1 stage2 stage3);
        Yield (event "complete" []) ] ∧
    trace σ1' = trace σ ++
      [ Stored (AddUserMessage cid content);
        Await Title;
        Stored (UpdateConversationTitle cid title);
        Await FullCouncil;
        Stored (AddAssistantMessage cid stage1' stage2' stage3') ].
Proof.
  intros Hconv Hfirst Hstream Hblock.
  destruct (event_generator_try_run _ _ _ _ _ _ _ Hconv Hstream)
    as (new & conv1 & Htrace & _ & _ & title & s1 & s2 & l2m & agg & s3
        & Htitle & _ & _ & _ & _ & ->).
  destruct (send_message_returns _ _ _ _ _ _ Hconv Hblock)
    as (s1' & s2' & s3' & md & _ & _ & Hb).
  rewrite Hfirst in Hb. cbn in Hb. destruct Hb as (title' & Htitle' & Hb).
  rewrite (Htitle eq_refl) in Htitle'. injection Htitle' as <-.
  exists title, s1, s2, l2m, agg, s3, s1', s2', s3'.
  split; [by apply Htitle|]. split; [|by split].
  rewrite (send_message_stream_run _ _ _ _ Hconv), Hfirst.
  by apply event_generator_ok.
Qed.

(** C8. In the blocking endpoint an exception that arises during title
    generation, in the council run or in a write to the store is not
    caught: the endpoint raises that very exception and returns no
    response. *)
Theorem send_message_propagates cid content σ conv e :
  store σ !! cid = Some conv →
  pipeline_failure cid content conv e →
  ∃ σ1, send_message cid content σ = (Raise e, σ1).
Proof.
  intros Hconv Hfail.
  unfold_run. cbn. rewrite Hconv. cbn.
  assert (∀ (P : Prop), title_phase_returns cid content conv →
    (storage_fault (AddUserMessage cid content) = None →
     (if is_empty (Storage.messages conv)
      then ∃ title, generate_conversation_title content = Ok title ∧
             storage_fault (UpdateConversationTitle cid title) = None
      else True) → P) → P) as Hphase.
  { intros P [Hu Ht] HP. apply HP; [done|].
    destruct (is_empty _); [by apply Ht|done]. }
  destruct Hfail as [Hu|Hu Hf Ht|title Hu Hf Ht Hw|Hp Hc
    |s1 s2 s3 md n1 n2 m Hp Hc H1 H2 H3 Hw];
    try (apply (Hphase _ Hp); intros Hu Ht;
         destruct (is_empty (Storage.messages conv));
         [destruct Ht as (title & Ht & Hw')|]).
  all: repeat (first [rewrite lookup_insert_eq | use_equation]; cbn).
  all: eauto.
Qed.
End main_facts.

(** * The properties on sample inputs *)

Section gateway_samples.
Import Py Openrouter Examples.

Lemma query_model_never_raises_witness :
  query_model None str_of (λ _, Ok response_503)
    "openai/gpt-oss-120b" [user_says "hello"] default_timeout = Ok None.
Proof.
  apply (proj1 (proj2 (query_model_never_raises None str_of
           (λ _, Ok response_503)
           "openai/gpt-oss-120b" [user_says "hello"] default_timeout))
           response_503).
  - reflexivity.
  - simpl. lia.
Defined.

Lemma query_model_content_absent_witness :
  ∃ r, query_model None str_of (λ _, Ok (response_200 body_without_content))
         "openai/gpt-oss-120b" [user_says "hello"] default_timeout = Ok (Some r) ∧
       content r = JNull ∧ reasoning_details r = JNull ∧
       success_count [Some r] = 1.
Proof.
  apply (query_model_content_absent None str_of
           (λ _, Ok (response_200 body_without_content))
           "openai/gpt-oss-120b" [user_says "hello"] default_timeout
           (response_200 body_without_content)
           [("choices", JArr [JObj [("message", JObj [])]])]
           [("message", JObj [])] [] [] []).
  - reflexivity.
  - simpl. lia.
  - reflexivity.
  - reflexivity.
  - reflexivity.
  - reflexivity.
  - left. reflexivity.
Defined.

(** C4 does not hold as stated: a 200 response with one choice whose message
    has no content gives a result dict, not [None]. *)
Lemma query_model_content_absent_counterexample :
  query_model None str_of (λ _, Ok (response_200 body_without_content))
    "openai/gpt-oss-120b" [user_says "hello"] default_timeout
    = Ok (Some {| content := JNull; reasoning_details := JNull |}) ∧
  ¬ (∀ key str post model messages timeout resp data c rest message,
       post (chat_request key model messages timeout) = Ok resp →
       (200 ≤ status_code resp < 300)%Z →
       json_body resp = Ok (JObj data) →
       dict_get "choices" data = Some (JArr (JObj c :: rest)) →
       dict_get "message" c = Some (JObj message) →
       dict_get "content" message = None →
       query_model key str post model messages timeout = Ok None).
Proof.
  split; [reflexivity|].
  intros Hclaim.
  specialize (Hclaim None str_of (λ _, Ok (response_200 body_without_content))
    "openai/gpt-oss-120b" [user_says "hello"] default_timeout
    (response_200 body_without_content)
    [("choices", JArr [JObj [("message", JObj [])]])]
    [("message", JObj [])] [] []).
  discriminate Hclaim; first [reflexivity | simpl; lia].
Qed.

Lemma query_model_success_witness :
  query_model None str_of (λ _, Ok (response_200 body_empty_text))
    "openai/gpt-oss-120b" [user_says "hello"] default_timeout
  = Ok (Some {| content := JStr EmptyString; reasoning_details := JNull |}).
Proof.
  apply (query_model_success None str_of
           (λ _, Ok (response_200 body_empty_text))
           "openai/gpt-oss-120b" [user_says "hello"] default_timeout
           (response_200 body_empty_text)
           [("choices",
             JArr [JObj [("message", JObj [("content", JStr EmptyString)])]])]
           [("message", JObj [("content", JStr EmptyString)])] []
           [("content", JStr EmptyString)] []).
  - reflexivity.
  - simpl. lia.
  - reflexivity.
  - reflexivity.
  - reflexivity.
  - reflexivity.
  - right. eexists. reflexivity.
Defined.

(** C7 does not hold as stated: a 200 response with one choice, a message
    with content and a null usage gives [None]. *)
Lemma query_model_success_counterexample :
  query_model None str_of (λ _, Ok (response_200 body_null_usage))
    "openai/gpt-oss-120b" [user_says "hello"] default_timeout = Ok None ∧
  ¬ (∀ key str post model messages timeout resp data c rest message,
       post (chat_request key model messages timeout) = Ok resp →
       (status_code resp < 400)%Z →
       json_body resp = Ok (JObj data) →
       dict_get "choices" data = Some (JArr (JObj c :: rest)) →
       dict_get "message" c = Some (JObj message) →
       query_model key str post model messages timeout =
         Ok (Some {| content := from_option id JNull (dict_get "content" message);
                     reasoning_details :=
                       from_option id JNull (dict_get "reasoning_details" message) |})).
Proof.
  split; [reflexivity|].
  intros Hclaim.
  specialize (Hclaim None str_of (λ _, Ok (response_200 body_null_usage))
    "openai/gpt-oss-120b" [user_says "hello"] default_timeout
    (response_200 body_null_usage)
    [("choices", JArr [JObj [("message", JObj [("content", JStr "hi")])]]);
     ("usage", JNull)]
    [("message", JObj [("content", JStr "hi")])] []
    [("content", JStr "hi")]).
  discriminate Hclaim; first [reflexivity | simpl; lia].
Qed.

Lemma query_models_parallel_ordered_witness :
  ∃ result,
    query_models_parallel None str_of second_call_fails [2; 0; 3; 1]
      Config.COUNCIL_MODELS [user_says "hello"] = Some (Ok result) ∧
    keys result = Config.COUNCIL_MODELS ∧
    length result = length Config.COUNCIL_MODELS ∧
    (∀ i model, Config.COUNCIL_MODELS !! i = Some model →
       ∃ r, query_model None str_of (second_call_fails i) model
              [user_says "hello"] default_timeout = Ok r ∧
            result !! i = Some (model, r)) ∧
    (∀ i model, Config.COUNCIL_MODELS !! i = Some model →
       query_model None str_of (second_call_fails i) model
         [user_says "hello"] default_timeout = Ok None →
       result !! i = Some (model, None) ∧ dict_get model result = Some None).
Proof.
  apply (query_models_parallel_ordered None str_of second_call_fails
           [user_says "hello"] [2; 0; 3; 1] Config.COUNCIL_MODELS).
  - refine (bool_decide_unpack _ _). vm_compute. exact I.
  - refine (bool_decide_unpack _ _). vm_compute. exact I.
Defined.

Lemma query_models_parallel_duplicates_witness :
  ∃ result,
    query_models_parallel None str_of answers_by_call [1; 2; 0]
      repeated_models [user_says "hello"] = Some (Ok result) ∧
    NoDup (keys result) ∧
    (∀ model, model ∈ keys result ↔ model ∈ repeated_models) ∧
    length result = length (remove_dups repeated_models) ∧
    (∀ i model r,
       repeated_models !! i = Some model →
       (∀ j, i < j → repeated_models !! j ≠ Some model) →
       query_model None str_of (answers_by_call i) model
         [user_says "hello"] default_timeout = Ok r →
       dict_get model result = Some r) ∧
    (length result = length repeated_models ↔ NoDup repeated_models).
Proof.
  apply (query_models_parallel_duplicates None str_of answers_by_call
           [user_says "hello"] [1; 2; 0] repeated_models).
  refine (bool_decide_unpack _ _). vm_compute. exact I.
Defined.

(** Three calls for two distinct ids: two entries, the repeated id at the
    place of its first occurrence with the answer to its last call. *)
Example query_models_parallel_repeated :
  query_models_parallel None str_of answers_by_call [1; 2; 0]
    repeated_models [user_says "hello"]
  = Some (Ok [ ("openai/gpt-oss-120b",
                Some {| content := JStr "later"; reasoning_details := JNull |});
               ("z-ai/glm-4.5-air:free", None) ]).
Proof. reflexivity. Qed.

(** Four distinct ids, the second call failing: four entries in the order
    of the input, whatever the order of completion. *)
Example query_models_parallel_council :
  query_models_parallel None str_of second_call_fails [2; 0; 3; 1]
    Config.COUNCIL_MODELS [user_says "hello"]
  = Some (Ok [ ("qwen/qwen3-vl-235b-a22b-thinking",
                Some {| content := JStr "hi"; reasoning_details := JNull |});
               ("openai/gpt-oss-120b", None);
               ("z-ai/glm-4.5-air:free",
                Some {| content := JStr "hi"; reasoning_details := JNull |});
               ("arcee-ai/trinity-large-preview:free",
                Some {| content := JStr "hi"; reasoning_details := JNull |}) ]).
Proof. reflexivity. Qed.
End gateway_samples.

Section calm_runs.
Import Py Main Examples.
#[local] Existing Instance calm.

Lemma stream_events_in_order_witness :
  ∃ new stage1 stage2 label_to_model aggregate stage3 title_events,
    send_message_stream "c1" "hello" start = (Ok (), calm_stream_end) ∧
    trace calm_stream_end = trace start ++ new ∧
    stage1_collect_responses "hello" = Ok stage1 ∧
    stage2_collect_rankings "hello" stage1 = Ok (stage2, label_to_model) ∧
    calculate_aggregate_rankings stage2 label_to_model = Ok aggregate ∧
    stage3_synthesize_final "hello" stage1 stage2 = Ok stage3 ∧
    (∃ title,
       generate_conversation_title "hello" = Ok title ∧
       title_events =
         [event "title_complete" [("data", JObj [("title", JStr title)])]]) ∧
    events new =
      [ event "stage1_start" [];
        event "stage1_complete" [("data", stage1)];
        event "stage2_start" [];
        event "stage2_complete"
          [("data", stage2);
           ("metadata", JObj [("label_to_model", label_to_model);
                              ("aggregate_rankings", aggregate)])];
        event "stage3_start" [];
        event "stage3_complete" [("data", stage3)] ]
      ++ title_events ++ [event "complete" []].
Proof.
  apply (stream_events_in_order "c1" "hello" start new_conversation
           calm_stream_end).
  - reflexivity.
  - reflexivity.
Defined.

Lemma title_generation_order_witness :
  ∃ title stage1 stage2 label_to_model aggregate stage3
      stage1' stage2' stage3',
    generate_conversation_title "hello" = Ok title ∧
    send_message_stream "c1" "hello" start = (Ok (), calm_stream_end) ∧
    trace calm_stream_end = trace start ++
      [ Stored (AddUserMessage "c1" "hello");
        CreateTask Title;
        Yield (event "stage1_start" []);
        Await Stage1;
        Yield (event "stage1_complete" [("data", stage1)]);
        Yield (event "stage2_start" []);
        Await Stage2;
        Yield (event "stage2_complete"
                 [("data", stage2);
                  ("metadata", JObj [("label_to_model", label_to_model);
                                     ("aggregate_rankings", aggregate)])]);
        Yield (event "stage3_start" []);
        Await Stage3;
        Yield (event "stage3_complete" [("data", stage3)]);
        AwaitTask Title;
        Stored (UpdateConversationTitle "c1" title);
        Yield (event "title_complete" [("data", JObj [("title", JStr title)])]);
        Stored (AddAssistantMessage "c1" stage1 stage2 stage3);
        Yield (event "complete" []) ] ∧
    trace calm_blocking_end = trace start ++
      [ Stored (AddUserMessage "c1" "hello");
        Await Title;
        Stored (UpdateConversationTitle "c1" title);
        Await FullCouncil;
        Stored (AddAssistantMessage "c1" stage1' stage2' stage3') ].
Proof.
  apply (title_generation_order "c1" "hello" start new_conversation
           calm_stream_end calm_response calm_blocking_end).
  - reflexivity.
  - reflexivity.
  - reflexivity.
  - reflexivity.
Defined.

(** C5 does not hold as stated: on a first message the blocking endpoint
    creates no task for the title; it awaits the title generation before
    the council starts. *)
Lemma title_generation_order_counterexample :
  send_message "c1" "hello" start = (Ok calm_response, calm_blocking_end) ∧
  trace calm_blocking_end =
    [ Stored (AddUserMessage "c1" "hello");
      Await Title;
      Stored (UpdateConversationTitle "c1" "Greeting");
      Await FullCouncil;
      Stored (AddAssistantMessage "c1"
                (JArr [JObj [("model", JStr "m1")]]) (JArr [])
                (JObj [("model", JStr "chairman")])) ] ∧
  (CreateTask Title ∉ trace calm_blocking_end) ∧
  (AwaitTask Title ∉ trace calm_blocking_end) ∧
  ¬ (∃ i j k,
       trace calm_blocking_end !! i = Some (CreateTask Title) ∧
       trace calm_blocking_end !! k = Some (Await FullCouncil) ∧
       trace calm_blocking_end !! j = Some (AwaitTask Title) ∧
       i < k < j).
Proof.
  assert (∀ a, a ∈ trace calm_blocking_end →
            a ≠ CreateTask Title ∧ a ≠ AwaitTask Title) as Hnone.
  { intros a Hin. change (trace calm_blocking_end) with
      [ Stored (AddUserMessage "c1" "hello"); Await Title;
        Stored (UpdateConversationTitle "c1" "Greeting"); Await FullCouncil;
        Stored (AddAssistantMessage "c1"
                  (JArr [JObj [("model", JStr "m1")]]) (JArr [])
                  (JObj [("model", JStr "chairman")])) ] in Hin.
    repeat (apply elem_of_cons in Hin as [->|Hin]; [done|]).
    by apply elem_of_nil in Hin. }
  split; [reflexivity|]. split; [reflexivity|].
  split; [intros Hin; by destruct (Hnone _ Hin)|].
  split; [intros Hin; by destruct (Hnone _ Hin)|].
  intros (i & j & k & Hi & _).
  apply list_elem_of_lookup_2 in Hi. by destruct (Hnone _ Hi).
Qed.
End calm_runs.

Section ranking_down_runs.
Import Py Main Examples.
#[local] Existing Instance ranking_down.

Lemma stream_error_is_last_witness :
  ∃ σ2 new emitted,
    send_message_stream "c1" "hello" start = (Ok (), σ2) ∧
    trace σ2 = trace start ++ new ∧
    events new = emitted ++ [event "error" [("message", JStr (str_exn boom))]] ∧
    Forall (λ ev, event_type ev ≠ Some "error" ∧ event_type ev ≠ Some "complete")
      emitted.
Proof.
  apply (stream_error_is_last "c1" "hello" start new_conversation boom
           ranking_down_try_end).
  - reflexivity.
  - reflexivity.
Defined.

Lemma stream_persistence_witness :
  ∃ σ2 new conv2,
    send_message_stream "c1" "hello" start = (Ok (), σ2) ∧
    trace σ2 = trace start ++ new ∧
    store σ2 !! "c1" = Some conv2 ∧
    (∀ pre ev post,
       new = pre ++ Yield ev :: post →
       event_type ev ≠ Some "error" →
       Stored (AddUserMessage "c1" "hello") ∈ pre) ∧
    ∃ before,
      new = before ++ [Yield (event "error" [("message", JStr (str_exn boom))])] ∧
      Forall (λ a, is_assistant_write a = false) new ∧
      (Stored (AddUserMessage "c1" "hello") ∈ new →
       Storage.messages conv2 =
         Storage.messages new_conversation ++ [Storage.UserMessage "hello"]) ∧
      (Stored (AddUserMessage "c1" "hello") ∉ new →
       Storage.messages conv2 = Storage.messages new_conversation).
Proof.
  apply (stream_persistence "c1" "hello" start new_conversation (Raise boom)
           ranking_down_try_end).
  - reflexivity.
  - reflexivity.
Defined.

Lemma send_message_propagates_witness :
  ∃ σ1, send_message "c1" "hello" start = (Raise boom, σ1).
Proof.
  apply (send_message_propagates "c1" "hello" start new_conversation boom).
  - reflexivity.
  - apply council_raises.
    + split; [reflexivity|]. intros _. exists "Greeting". split; reflexivity.
    + reflexivity.
Defined.

(** The ranking stage raises: the events of stage 1, the start of stage 2,
    then the error; the conversation holds the user message alone. *)
Example stream_with_ranking_down :
  events (trace (send_message_stream "c1" "hello" start).2)
  = [ event "stage1_start" [];
      event "stage1_complete" [("data", JArr [JObj [("model", JStr "m1")]])];
      event "stage2_start" [];
      event "error" [("message", JStr "boom")] ] ∧
  Storage.messages <$> store (send_message_stream "c1" "hello" start).2 !! "c1"
  = Some [Storage.UserMessage "hello"].
Proof. split; reflexivity. Qed.
End ranking_down_runs.

(** * Further properties of the gateway *)

Section error_message_facts.
Import Py Openrouter.
Variable str : json → string.





(** X2. [_extract_error_message] returns a message exactly when the body is
    not JSON or decodes to an object; on a body that decodes to anything
    else (a list, a string, a number, null) it raises. *)
Theorem extract_error_message_returns_iff (r : response) :
  (∃ msg, _extract_error_message str r = Ok msg) ↔
  (∃ e, json_body r = Raise e) ∨ (∃ fields, json_body r = Ok (JObj fields)).
Proof.
  unfold _extract_error_message. split.
  - intros [msg Hmsg]. destruct (json_body r) as [data|e]; [|eauto].
    right. destruct data; try discriminate. eauto.
  - intros [[e ->]|[fields ->]]; [eauto|]. simpl.
    destruct (from_option id JNull (dict_get "error" fields)) eqn:He;
      simpl; eauto.
Qed.

(** X3. On a body that decodes to an object, [_extract_error_message] renders
    the message of the error when the error is an object with one, the error
    itself when it is an object without a message or any other true value,
    and the whole body when there is no error or a false one. *)
Theorem extract_error_message_choice (r : response) fields :
  json_body r = Ok (JObj fields) →
  (∀ error message,
     dict_get "error" fields = Some (JObj error) →
     dict_get "message" error = Some message →
     _extract_error_message str r = Ok (str message)) ∧
  (∀ error,
     dict_get "error" fields = Some (JObj error) →
     dict_get "message" error = None →
     _extract_error_message str r = Ok (str (JObj error))) ∧
  (∀ error,
     dict_get "error" fields = Some error →
     is_dict error = false →
     truthy error = true →
     _extract_error_message str r = Ok (str error)) ∧
  (dict_get "error" fields = None ∨
   (∃ error, dict_get "error" fields = Some error ∧
             is_dict error = false ∧ truthy error = false) →
   _extract_error_message str r = Ok (str (JObj fields))).
Proof.
  intros Hbody. unfold _extract_error_message. rewrite Hbody. simpl.
  split; [|split; [|split]].
  - intros error message -> Hm. simpl. by rewrite Hm.
  - intros error -> Hm. simpl. by rewrite Hm.
  - intros error -> Hd Ht. simpl. rewrite Hd. unfold py_or. by rewrite Ht.
  - intros [->|(error & -> & Hd & Ht)]; simpl; [done|].
    rewrite Hd. unfold py_or. by rewrite Ht.
Qed.
End error_message_facts.

Section query_model_facts.
Import Py Openrouter.
Variable key : option string.
Variable str : json → string.

Lemma py_get_ok_inv v k d r : py_get v k d = Ok r →
  ∃ fields, v = JObj fields ∧ r = from_option id d (dict_get k fields).
Proof. destruct v; simpl; intros [= <-]; eauto. Qed.

(** X4. A result of [query_model] that is not [None] comes from a response
    below 400 whose body decodes to an object with a non-empty list of
    choices, the first an object, with the message and the usage objects or
    absent; its content and its reasoning details are those of the first
    message, and the content is one [len] accepts or a false value. *)
Theorem query_model_some_inv post model messages timeout r :
  query_model key str post model messages timeout = Ok (Some r) →
  ∃ resp data c rest message usage,
    post (chat_request key model messages timeout) = Ok resp ∧
    (status_code resp < 400)%Z ∧
    json_body resp = Ok (JObj data) ∧
    dict_get "choices" data = Some (JArr (JObj c :: rest)) ∧
    from_option id (JObj []) (dict_get "message" c) = JObj message ∧
    from_option id (JObj []) (dict_get "usage" data) = JObj usage ∧
    content r = from_option id JNull (dict_get "content" message) ∧
    reasoning_details r =
      from_option id JNull (dict_get "reasoning_details" message) ∧
    ∃ n, py_len (py_or (content r) (JStr EmptyString)) = Ok n.
Proof.
  unfold query_model, try_except.
  destruct (query_model_try key str post model messages timeout)
    as [r'|e] eqn:Htry; [|discriminate].
  intros [= ->]. unfold query_model_try in Htry.
  destruct (post (chat_request key model messages timeout)) as [resp|]
    eqn:Hpost; [|discriminate]. simpl in Htry.
  destruct (400 <=? status_code resp)%Z eqn:Hst.
  { destruct (_extract_error_message str resp); discriminate. }
  destruct (json_body resp) as [data|] eqn:Hbody; [|discriminate].
  simpl in Htry.
  destruct (py_get data "choices" (JArr [])) as [choices|] eqn:Hchoices;
    [|discriminate]. simpl in Htry.
  apply py_get_ok_inv in Hchoices as (fields & -> & ->).
  destruct (truthy _) eqn:Htruthy; [|discriminate]. simpl in Htry.
  destruct (py_index0 _) as [c0|] eqn:Hc0; [|discriminate]. simpl in Htry.
  destruct (py_get c0 "message" (JObj [])) as [msg|] eqn:Hmsg;
    [|discriminate]. simpl in Htry.
  apply py_get_ok_inv in Hmsg as (c & -> & ->).
  destruct (from_option id (JObj []) (dict_get "usage" fields))
    as [| | | | |usage] eqn:Husage; try discriminate. simpl in Htry.
  destruct (from_option id (JObj []) (dict_get "message" c))
    as [| | | | |message] eqn:Hmessage; try discriminate. simpl in Htry.
  destruct (py_len _) as [n|] eqn:Hlen; [|discriminate].
  injection Htry as <-.
  destruct (dict_get "choices" fields) as [choices|] eqn:Hch;
    [|discriminate]. simpl in *.
  destruct choices as [| | |s|items|]; try discriminate.
  { destruct s; [discriminate|]. simpl in Hc0. discriminate. }
  destruct items as [|c0 rest]; [discriminate|]. injection Hc0 as ->.
  exists resp, fields, c, rest, message, usage.
  repeat (split; [first [done | lia]|]). simpl. eauto.
Qed.

(** X5. Below 400 the status does not matter, nor does anything else of the
    response or of the call but the decoded body: two calls whose responses
    are below 400 and have the same body return the same result. *)
Theorem query_model_body_alone key' str' post post' model model'
    messages messages' timeout timeout' resp resp' :
  post (chat_request key model messages timeout) = Ok resp →
  post' (chat_request key' model' messages' timeout') = Ok resp' →
  (status_code resp < 400)%Z →
  (status_code resp' < 400)%Z →
  json_body resp = json_body resp' →
  query_model key str post model messages timeout =
    query_model key' str' post' model' messages' timeout'.
Proof.
  intros Hpost Hpost' Hst Hst' Hbody.
  unfold query_model, query_model_try. rewrite Hpost, Hpost'. simpl.
  destruct (400 <=? status_code resp)%Z eqn:Hle; [lia|].
  destruct (400 <=? status_code resp')%Z eqn:Hle'; [lia|].
  by rewrite Hbody.
Qed.

(** X6. The content is not checked to be text.  In an otherwise well-formed
    response a content that is false for Python (null, false, 0, the empty
    text, list or object) is returned as the content of the result; a
    content that is [true] or a number other than 0 makes the call fail. *)
Theorem query_model_content_not_text post model messages timeout
    resp data c rest message usage v :
  post (chat_request key model messages timeout) = Ok resp →
  (status_code resp < 400)%Z →
  json_body resp = Ok (JObj data) →
  dict_get "choices" data = Some (JArr (JObj c :: rest)) →
  from_option id (JObj []) (dict_get "message" c) = JObj message →
  from_option id (JObj []) (dict_get "usage" data) = JObj usage →
  dict_get "content" message = Some v →
  (truthy v = false →
   query_model key str post model messages timeout =
     Ok (Some {| content := v;
                 reasoning_details :=
                   from_option id JNull (dict_get "reasoning_details" message) |})) ∧
  (v = JBool true ∨ (∃ n, v = JNum n ∧ n ≠ 0%Z) →
   query_model key str post model messages timeout = Ok None).
Proof.
  intros Hpost Hst Hbody Hch Hmsg Husage Hv. split.
  - intros Hfalse.
    rewrite (query_model_well_formed key str _ _ _ _ _ _ _ _ _ _
               Hpost Hst Hbody Hch Hmsg Husage); rewrite Hv; [done|].
    simpl. unfold py_or. rewrite Hfalse. by eexists.
  - intros Hbad.
    assert (∃ e, py_len (py_or v (JStr EmptyString)) = Raise e) as [e He].
    { destruct Hbad as [->|(n & -> & Hn)]; [by eexists|].
      unfold py_or. simpl. destruct (Z.eqb_spec n 0); [done|]. by eexists. }
    apply (query_model_try_raise key str _ _ _ _ e).
    rewrite (query_model_try_choices key str _ _ _ _ _ _ _ _
               Hpost Hst Hbody Hch).
    simpl. rewrite Hmsg. simpl. rewrite Husage. simpl. rewrite Hv. simpl.
    by rewrite He.
Qed.
End query_model_facts.

(** * Further properties of the fan-out *)

Section fan_out_more_facts.
Import Py Openrouter.
Variable key : option string.
Variable str : json → string.
Variable messages : list chat_message.

Lemma mapM_id_None {A} (slots : list (option A)) i :
  slots !! i = Some None → mapM id slots = None.
Proof.
  revert i. induction slots as [|x slots IH]; intros [|i]; simpl; try done.
  - by intros [= ->].
  - intros Hi. destruct x; [|done]. simpl. by rewrite (IH _ Hi).
Qed.

(** X7. [query_models_parallel] waits for every call: as long as one of the
    tasks has not completed, it has not returned. *)
Theorem query_models_parallel_waits_for_all posts schedule
    (models : list string) i :
  i < length models →
  i ∉ schedule →
  query_models_parallel key str posts schedule models messages = None.
Proof.
  intros Hi Hnot. unfold query_models_parallel.
  rewrite tasks_all_ok. unfold gather. rewrite length_fmap, length_imap.
  set (rs := imap (response_of key str posts messages) models).
  destruct (complete_all_ok rs schedule (replicate (length models) None))
    as (slots & -> & _ & Hlook).
  { rewrite length_replicate. unfold rs. by rewrite length_imap. }
  specialize (Hlook i). rewrite decide_False in Hlook by done.
  rewrite lookup_replicate_2 in Hlook by done.
  by rewrite (mapM_id_None _ _ Hlook).
Qed.

Lemma query_model_post_ext post post' model timeout :
  post (chat_request key model messages timeout)
    = post' (chat_request key model messages timeout) →
  query_model key str post model messages timeout
    = query_model key str post' model messages timeout.
Proof. intros Heq. unfold query_model, query_model_try. by rewrite Heq. Qed.

(** X8. One call does not touch the results of the others: when two networks
    differ only in what the [j]-th call meets, then for distinct model ids
    and any two completion orders the two mappings have the same entry at
    every position but the [j]-th. *)
Theorem query_models_parallel_isolates posts posts' schedule schedule'
    (models : list string) j :
  NoDup models →
  schedule ≡ₚ seq 0 (length models) →
  schedule' ≡ₚ seq 0 (length models) →
  (∀ i req, i ≠ j → posts i req = posts' i req) →
  ∃ result result',
    query_models_parallel key str posts schedule models messages
      = Some (Ok result) ∧
    query_models_parallel key str posts' schedule' models messages
      = Some (Ok result') ∧
    keys result = keys result' ∧
    ∀ i, i ≠ j → result !! i = result' !! i.
Proof.
  intros Hnodup Hs Hs' Hsame. eexists _, _.
  split; [by apply query_models_parallel_returns|].
  split; [by apply query_models_parallel_returns|].
  assert (∀ p, keys (zip models (imap (response_of key str p messages) models))
               = models) as Hkeys.
  { intros p. apply fst_zip. by rewrite length_imap. }
  rewrite !dict_of_items_NoDup by (by rewrite Hkeys).
  split; [by rewrite !Hkeys|].
  intros i Hi. apply option_eq. intros [model r].
  rewrite !lookup_zip_Some, !list_lookup_imap.
  assert (∀ m, response_of key str posts messages i m
               = response_of key str posts' messages i m) as Hr.
  { intros m. unfold response_of.
    by rewrite (query_model_post_ext (posts i) (posts' i)) by by apply Hsame. }
  split; intros [Hm Hresp]; (split; [done|]);
    destruct (models !! i) as [m|]; simpl in *; try done;
    by rewrite <- Hresp, Hr.
Qed.

(** X9. The configured council has no model twice and holds the chairman:
    on the configured council the fan-out returns four entries, one per
    council member in the configured order, whatever the network does and
    in whatever order the calls complete. *)
Theorem query_models_parallel_on_council posts schedule :
  schedule ≡ₚ seq 0 (length Config.COUNCIL_MODELS) →
  Config.CHAIRMAN_MODEL ∈ Config.COUNCIL_MODELS ∧
  ∃ result,
    query_models_parallel key str posts schedule Config.COUNCIL_MODELS messages
      = Some (Ok result) ∧
    keys result = Config.COUNCIL_MODELS ∧
    length result = 4.
Proof.
  intros Hs. split; [by left|].
  eexists. split; [by apply query_models_parallel_returns|].
  assert (keys (zip Config.COUNCIL_MODELS
                  (imap (response_of key str posts messages) Config.COUNCIL_MODELS))
          = Config.COUNCIL_MODELS) as Hkeys.
  { apply fst_zip. by rewrite length_imap. }
  assert (NoDup Config.COUNCIL_MODELS) as Hnodup.
  { refine (bool_decide_unpack _ _). vm_compute. exact I. }
  rewrite dict_of_items_NoDup by (by rewrite Hkeys).
  split; [done|]. by rewrite length_zip, length_imap.
Qed.
End fan_out_more_facts.

(** * Further properties of the endpoints *)

Section endpoint_facts.
Import Py Main.
Context `{World}.

Ltac unfold_run :=
  unfold send_message_stream, event_generator, try_except,
    event_generator_except, event_generator_try, send_message,
    api_get_conversation, get_conversation,
    Storage.get_conversation, storage_write,
    Storage.add_user_message, Storage.update_conversation_title,
    Storage.add_assistant_message, Storage.update,
    await, create_task, await_task, yield, act, lift, raise,
    mbind, M_mbind, M_bind, mret, M_mret, M_ret.

Ltac split_run :=
  repeat match goal with
  | |- context [match ?x with _ => _ end] =>
      lazymatch x with
      | context [match _ with _ => _ end] => fail
      | _ => destruct x eqn:?
      end; cbn; rewrite ?lookup_insert_eq
  end.

Ltac use_equation :=
  match goal with
  | Heq : ?x = _ |- context [?x] => rewrite Heq
  end.

Ltac run_with_equations :=
  repeat (first [rewrite lookup_insert_eq | use_equation]; cbn).

Ltac solve_trace :=
  cbn; rewrite <- ?app_assoc; cbn;
  first [reflexivity | symmetry; apply app_nil_r | by rewrite app_nil_r].

(** X10. For an identifier that is not in the store the three endpoints
    that take one raise the 404 exception and leave everything as it was:
    nothing is stored, no council call is made, no stream is opened. *)
Theorem unknown_conversation_is_404 cid content σ :
  store σ !! cid = None →
  api_get_conversation cid σ = (Raise HTTP_404, σ) ∧
  send_message cid content σ = (Raise HTTP_404, σ) ∧
  send_message_stream cid content σ = (Raise HTTP_404, σ).
Proof. intros Hnone. unfold_run. cbn. by rewrite Hnone. Qed.

Lemma progress_events_before_persisting cid content b title s1 s2 l2m agg s3 :
  Forall (λ ev, ∃ t, event_type ev = Some t ∧ t ∈ progress_event_types)
    (events (actions_before_persisting cid content b title s1 s2 l2m agg s3)).
Proof.
  destruct b; cbn; repeat constructor; eexists; (split; [reflexivity|]);
    unfold progress_event_types; set_solver.
Qed.

(** X11. Every stream over a conversation of the store ends with one
    terminal event: the events are progress events (the six stage events
    and [title_complete]) followed by a last event that is [complete] or
    [error]; it is [complete] exactly when the assistant message was
    stored. *)
Theorem stream_ends_with_one_terminal_event cid content σ conv :
  store σ !! cid = Some conv →
  ∃ σ2 new earlier last,
    send_message_stream cid content σ = (Ok (), σ2) ∧
    trace σ2 = trace σ ++ new ∧
    events new = earlier ++ [last] ∧
    Forall (λ ev, ∃ t, event_type ev = Some t ∧ t ∈ progress_event_types)
      earlier ∧
    (event_type last = Some "complete" ∨ event_type last = Some "error") ∧
    (event_type last = Some "complete" ↔
     Exists (λ a, is_assistant_write a = true) new).
Proof.
  intros Hconv.
  rewrite (send_message_stream_run _ _ _ _ Hconv).
  destruct (event_generator_try cid content
              (is_empty (Storage.messages conv)) σ) as [r σ1] eqn:Hrun.
  destruct (event_generator_try_run _ _ _ _ _ _ _ Hconv Hrun)
    as (new & conv1 & Htrace & _ & _ & Hr).
  destruct r as [[]|e].
  - destruct Hr as (title & s1 & s2 & l2m & agg & s3 & _ & _ & _ & _ & _ & ->).
    eexists σ1, _, _, (event "complete" []).
    split; [by apply event_generator_ok|]. split; [done|].
    split; [by rewrite events_app|].
    split; [apply progress_events_before_persisting|].
    split; [by left|]. split; [intros _|done].
    apply Exists_app. right. by left.
  - destruct Hr as (title & s1 & s2 & l2m & agg & s3 & rest & Hprefix).
    eexists _, (new ++ [Yield (event "error" [("message", JStr (str_exn e))])]),
      (events new), _.
    split; [by apply event_generator_raise|].
    split; [cbn; by rewrite Htrace, <- app_assoc|].
    split; [by rewrite events_app|]. split.
    { pose proof (progress_events_before_persisting cid content
        (is_empty (Storage.messages conv)) title s1 s2 l2m agg s3) as Hall.
      rewrite <- Hprefix, events_app in Hall.
      by apply Forall_app in Hall as [? _]. }
    split; [by right|]. split; [done|].
    intros Hex. exfalso.
    pose proof (no_assistant_write_before_persisting cid content
      (is_empty (Storage.messages conv)) title s1 s2 l2m agg s3) as Hall.
    rewrite <- Hprefix in Hall. apply Forall_app in Hall as [Hnew _].
    apply Exists_app in Hex as [Hex|Hex].
    + apply Exists_exists in Hex as (a & Ha & Hw).
      rewrite Forall_forall in Hnew. by rewrite (Hnew _ Ha) in Hw.
    + apply Exists_cons in Hex as [Hex|Hex]; [done|]. by apply Exists_nil in Hex.
Qed.

(** X12. The message endpoints write to the addressed conversation alone:
    whatever a run does and however it ends, every other conversation of
    the store is as it was. *)
Theorem endpoints_touch_one_conversation cid content σ other :
  other ≠ cid →
  store (send_message cid content σ).2 !! other = store σ !! other ∧
  store (send_message_stream cid content σ).2 !! other = store σ !! other.
Proof.
  intros Hother. split; unfold_run; cbn.
  - split_run; rewrite ?lookup_insert_ne by done; done.
  - split_run; rewrite ?lookup_insert_ne by done; done.
Qed.

(** X13. When [send_message] returns, the response holds the three stage
    results and the metadata of the council run, and the conversation holds
    its former messages followed by the user message and the assistant
    message with these stage results; its title is the generated one for a
    first message and the former one otherwise. *)
Theorem send_message_persists cid content σ conv resp σ1 :
  store σ !! cid = Some conv →
  send_message cid content σ = (Ok resp, σ1) →
  ∃ stage1 stage2 stage3 metadata title,
    run_full_council content = Ok (stage1, stage2, stage3, metadata) ∧
    resp = JObj [("stage1", stage1); ("stage2", stage2); ("stage3", stage3);
                 ("metadata", metadata)] ∧
    store σ1 !! cid =
      Some {| Storage.title := title;
              Storage.messages :=
                Storage.messages conv
                ++ [Storage.UserMessage content;
                    Storage.AssistantMessage stage1 stage2 stage3] |} ∧
    if is_empty (Storage.messages conv)
    then generate_conversation_title content = Ok title
    else title = Storage.title conv.
Proof.
  intros Hconv. unfold_run. cbn. rewrite Hconv. cbn.
  destruct (is_empty (Storage.messages conv)); split_run;
    intros Heq; try discriminate Heq; injection Heq as <- <-; simplify_eq;
    eexists _, _, _, _, _; (split; [done|]); (split; [done|]);
    (split; [cbn; rewrite lookup_insert_eq, <- app_assoc; reflexivity|]);
    done.
Qed.

(** X14. When [send_message] raises, nothing is rolled back: no assistant
    message has been stored, and the user message is in the conversation
    unless its own write was refused. *)
Theorem send_message_failure_keeps_user_message cid content σ conv e σ1 :
  store σ !! cid = Some conv →
  send_message cid content σ = (Raise e, σ1) →
  ∃ new conv1,
    trace σ1 = trace σ ++ new ∧
    store σ1 !! cid = Some conv1 ∧
    Forall (λ a, is_assistant_write a = false) new ∧
    (Storage.messages conv1 = Storage.messages conv ∨
     Storage.messages conv1 =
       Storage.messages conv ++ [Storage.UserMessage content]) ∧
    (storage_fault (AddUserMessage cid content) = None →
     Storage.messages conv1 =
       Storage.messages conv ++ [Storage.UserMessage content]).
Proof.
  intros Hconv. unfold_run. cbn. rewrite Hconv. cbn.
  destruct (is_empty (Storage.messages conv)); split_run;
    intros Heq; try discriminate Heq; injection Heq as <- <-; simplify_eq.
  all: eexists _, _; (split; [solve_trace|]).
  all: (split; [first [apply lookup_insert_eq | done]|]).
  all: (split; [repeat constructor|]).
  all: cbn; (split; [|intros ?]); first [congruence | by right | by left].
Qed.

(** X15. For a message that is not the first of its conversation neither
    endpoint generates, awaits or stores a title, however the run ends: the
    title of the conversation is as it was. *)
Theorem later_message_leaves_title cid content σ conv :
  store σ !! cid = Some conv →
  is_empty (Storage.messages conv) = false →
  (∃ new conv1,
     trace (send_message cid content σ).2 = trace σ ++ new ∧
     Forall (λ a, is_title_action a = false) new ∧
     store (send_message cid content σ).2 !! cid = Some conv1 ∧
     Storage.title conv1 = Storage.title conv) ∧
  (∃ new conv1,
     trace (send_message_stream cid content σ).2 = trace σ ++ new ∧
     Forall (λ a, is_title_action a = false) new ∧
     store (send_message_stream cid content σ).2 !! cid = Some conv1 ∧
     Storage.title conv1 = Storage.title conv).
Proof.
  intros Hconv Hlater.
  split; unfold_run; cbn; rewrite Hconv; cbn; rewrite Hlater; cbn;
    split_run; simplify_eq.
  all: eexists _, _; (split; [solve_trace|]).
  all: (split; [repeat constructor|]).
  all: (split; [first [apply lookup_insert_eq | eassumption | reflexivity]|]);
    done.
Qed.

(** X16. A failing title generation is met at different points.  The
    stream runs the three stages first and reports the failure after
    [stage3_complete], in place of [title_complete] and [complete]; the
    blocking endpoint raises before the council is awaited.  In both the
    user message is stored and the assistant message is not. *)
Theorem title_failure_by_mode cid content σ conv e
    stage1 stage2 label_to_model aggregate stage3 n1 n2 model :
  store σ !! cid = Some conv →
  Storage.messages conv = [] →
  storage_fault (AddUserMessage cid content) = None →
  generate_conversation_title content = Raise e →
  stage1_collect_responses content = Ok stage1 →
  py_len stage1 = Ok n1 →
  stage2_collect_rankings content stage1 = Ok (stage2, label_to_model) →
  calculate_aggregate_rankings stage2 label_to_model = Ok aggregate →
  py_len stage2 = Ok n2 →
  stage3_synthesize_final content stage1 stage2 = Ok stage3 →
  py_get stage3 "model" (JStr "unknown") = Ok model →
  trace (send_message_stream cid content σ).2 = trace σ ++
    [ Stored (AddUserMessage cid content);
      CreateTask Title;
      Yield (event "stage1_start" []);
      Await Stage1;
      Yield (event "stage1_complete" [("data", stage1)]);
      Yield (event "stage2_start" []);
      Await Stage2;
      Yield (event "stage2_complete"
               [("data", stage2);
                ("metadata", JObj [("label_to_model", label_to_model);
                                   ("aggregate_rankings", aggregate)])]);
      Yield (event "stage3_start" []);
      Await Stage3;
      Yield (event "stage3_complete" [("data", stage3)]);
      AwaitTask Title;
      Yield (event "error" [("message", JStr (str_exn e))]) ] ∧
  (send_message cid content σ).1 = Raise e ∧
  trace (send_message cid content σ).2 = trace σ ++
    [ Stored (AddUserMessage cid content); Await Title ].
Proof.
  intros Hconv Hfirst Hu Ht H1 Hn1 H2 Hagg Hn2 H3 Hm.
  assert (is_empty (Storage.messages conv) = true) as Hempty
    by (by rewrite Hfirst).
  split; [|split]; unfold_run; cbn; run_with_equations; solve_trace.
Qed.

(** X17. When nothing raises in the stream, the conversation holds its
    former messages followed by the user message and the assistant message
    with the results of the three stages; its title is the generated one
    for a first message and the former one otherwise. *)
Theorem stream_persists cid content σ conv σ1 :
  store σ !! cid = Some conv →
  event_generator_try cid content (is_empty (Storage.messages conv)) σ
    = (Ok (), σ1) →
  ∃ stage1 stage2 label_to_model stage3 title,
    stage1_collect_responses content = Ok stage1 ∧
    stage2_collect_rankings content stage1 = Ok (stage2, label_to_model) ∧
    stage3_synthesize_final content stage1 stage2 = Ok stage3 ∧
    store σ1 !! cid =
      Some {| Storage.title := title;
              Storage.messages :=
                Storage.messages conv
                ++ [Storage.UserMessage content;
                    Storage.AssistantMessage stage1 stage2 stage3] |} ∧
    if is_empty (Storage.messages conv)
    then generate_conversation_title content = Ok title
    else title = Storage.title conv.
Proof.
  intros Hconv. unfold_run. cbn. rewrite Hconv.
  destruct (is_empty (Storage.messages conv)); split_run;
    intros Heq; try discriminate Heq; injection Heq as <-; simplify_eq;
    eexists _, _, _, _, _; repeat (split; [done|]);
    (split; [cbn; rewrite lookup_insert_eq, <- app_assoc; reflexivity|]);
    done.
Qed.

(** X18. The two modes store the same: when both runs return and the
    council run of the blocking mode gives the results that the three
    stages give to the stream, the stores after the two runs are equal. *)
Theorem modes_store_the_same cid content σ conv σ1 resp σ1'
    stage1 stage2 label_to_model stage3 metadata :
  store σ !! cid = Some conv →
  event_generator_try cid content (is_empty (Storage.messages conv)) σ
    = (Ok (), σ1) →
  send_message cid content σ = (Ok resp, σ1') →
  stage1_collect_responses content = Ok stage1 →
  stage2_collect_rankings content stage1 = Ok (stage2, label_to_model) →
  stage3_synthesize_final content stage1 stage2 = Ok stage3 →
  run_full_council content = Ok (stage1, stage2, stage3, metadata) →
  store σ1 = store σ1'.
Proof.
  intros Hconv Hstream Hblock H1 H2 H3 Hc. revert Hstream Hblock.
  unfold_run. cbn. rewrite Hconv, H1, Hc. cbn.
  destruct (is_empty (Storage.messages conv)); cbn;
    run_with_equations; split_run;
    intros Heq; try discriminate Heq; injection Heq as <-;
    run_with_equations; split_run;
    intros Heq; try discriminate Heq; injection Heq as <- <-; done.
Qed.

(** X19. The final answer is read as a dict before [stage3_complete] is
    emitted: when stage 3 returns anything else, the stream reports an
    error in place of [stage3_complete] and the assistant message is not
    stored. *)
Theorem stream_stage3_not_a_dict cid content σ conv
    stage1 stage2 label_to_model aggregate stage3 n1 n2 :
  store σ !! cid = Some conv →
  storage_fault (AddUserMessage cid content) = None →
  stage1_collect_responses content = Ok stage1 →
  py_len stage1 = Ok n1 →
  stage2_collect_rankings content stage1 = Ok (stage2, label_to_model) →
  calculate_aggregate_rankings stage2 label_to_model = Ok aggregate →
  py_len stage2 = Ok n2 →
  stage3_synthesize_final content stage1 stage2 = Ok stage3 →
  Openrouter.is_dict stage3 = false →
  ∃ σ2 new,
    send_message_stream cid content σ = (Ok (), σ2) ∧
    trace σ2 = trace σ ++ new ∧
    events new =
      [ event "stage1_start" [];
        event "stage1_complete" [("data", stage1)];
        event "stage2_start" [];
        event "stage2_complete"
          [("data", stage2);
           ("metadata", JObj [("label_to_model", label_to_model);
                              ("aggregate_rankings", aggregate)])];
        event "stage3_start" [];
        event "error"
          [("message",
            JStr ("'" +:+ type_name stage3
                  +:+ "' object has no attribute 'get'"))] ] ∧
    Forall (λ a, is_assistant_write a = false) new.
Proof.
  intros Hconv Hu H1 Hn1 H2 Hagg Hn2 H3 Hdict.
  assert (py_get stage3 "model" (JStr "unknown")
          = Raise (Exception "AttributeError"
                     ("'" +:+ type_name stage3
                      +:+ "' object has no attribute 'get'"))) as Hget
    by (by destruct stage3).
  unfold_run. cbn. rewrite Hconv.
  destruct (is_empty (Storage.messages conv)); cbn; run_with_equations;
    eexists _, _; (split; [reflexivity|]); (split; [solve_trace|]);
    (split; [reflexivity|]); repeat constructor.
Qed.

(** X20. Whatever the environment sets as [LOG_LEVEL], the level handed to
    uvicorn is one of its six valid levels. *)
Theorem uvicorn_log_level_valid (upper lower : string → string) env :
  UVICORN_LOG_LEVEL upper lower env ∈ VALID_UVICORN_LOG_LEVELS.
Proof.
  unfold UVICORN_LOG_LEVEL. cbn. case_decide; [done|].
  unfold VALID_UVICORN_LOG_LEVELS. set_solver.
Qed.
End endpoint_facts.

(** * The further properties on sample inputs *)

Section gateway_more_samples.
Import Py Openrouter Examples.


Lemma extract_error_message_choice_witness :
  _extract_error_message str_of response_429 = Ok (str_of (JStr "quota exceeded")).
Proof.
  apply (proj1 (extract_error_message_choice str_of response_429
           [("error", JObj [("message", JStr "quota exceeded");
                            ("code", JNum 429)])] eq_refl)
           [("message", JStr "quota exceeded"); ("code", JNum 429)]).
  - reflexivity.
  - reflexivity.
Defined.

Lemma query_model_some_inv_witness :
  ∃ resp data c rest message usage,
    (λ _ : request, Ok (response_200 body_text))
      (chat_request None "openai/gpt-oss-120b" [user_says "hello"]
         default_timeout) = Ok resp ∧
    (status_code resp < 400)%Z ∧
    json_body resp = Ok (JObj data) ∧
    dict_get "choices" data = Some (JArr (JObj c :: rest)) ∧
    from_option id (JObj []) (dict_get "message" c) = JObj message ∧
    from_option id (JObj []) (dict_get "usage" data) = JObj usage ∧
    JStr "hi" = from_option id JNull (dict_get "content" message) ∧
    JNull = from_option id JNull (dict_get "reasoning_details" message) ∧
    ∃ n, py_len (py_or (JStr "hi") (JStr EmptyString)) = Ok n.
Proof.
  apply (query_model_some_inv None str_of
           (λ _, Ok (response_200 body_text))
           "openai/gpt-oss-120b" [user_says "hello"] default_timeout
           {| content := JStr "hi"; reasoning_details := JNull |}).
  reflexivity.
Defined.

Lemma query_model_body_alone_witness :
  query_model None str_of (λ _, Ok (response_200 body_text))
    "openai/gpt-oss-120b" [user_says "hello"] default_timeout
  = query_model (Some "sk-or-v1") str_of (λ _, Ok (response_302 body_text))
      "z-ai/glm-4.5-air:free" [] 30.
Proof.
  apply (query_model_body_alone None str_of (Some "sk-or-v1") str_of
           (λ _, Ok (response_200 body_text))
           (λ _, Ok (response_302 body_text))
           "openai/gpt-oss-120b" "z-ai/glm-4.5-air:free"
           [user_says "hello"] [] default_timeout 30
           (response_200 body_text) (response_302 body_text)).
  - reflexivity.
  - reflexivity.
  - simpl. lia.
  - simpl. lia.
  - reflexivity.
Defined.

Lemma query_model_content_not_text_witness :
  (truthy (JNum 5) = false →
   query_model None str_of (λ _, Ok (response_200 body_numeric_content))
     "openai/gpt-oss-120b" [user_says "hello"] default_timeout =
     Ok (Some {| content := JNum 5; reasoning_details := JNull |})) ∧
  (JNum 5 = JBool true ∨ (∃ n, JNum 5 = JNum n ∧ n ≠ 0%Z) →
   query_model None str_of (λ _, Ok (response_200 body_numeric_content))
     "openai/gpt-oss-120b" [user_says "hello"] default_timeout = Ok None).
Proof.
  apply (query_model_content_not_text None str_of
           (λ _, Ok (response_200 body_numeric_content))
           "openai/gpt-oss-120b" [user_says "hello"] default_timeout
           (response_200 body_numeric_content)
           [("choices", JArr [JObj [("message", JObj [("content", JNum 5)])]])]
           [("message", JObj [("content", JNum 5)])] []
           [("content", JNum 5)] [] (JNum 5)).
  - reflexivity.
  - simpl. lia.
  - reflexivity.
  - reflexivity.
  - reflexivity.
  - reflexivity.
  - reflexivity.
Defined.

Lemma query_models_parallel_waits_for_all_witness :
  query_models_parallel None str_of second_call_fails [0; 1; 3]
    Config.COUNCIL_MODELS [user_says "hello"] = None.
Proof.
  apply (query_models_parallel_waits_for_all None str_of [user_says "hello"]
           second_call_fails [0; 1; 3] Config.COUNCIL_MODELS 2).
  - simpl. lia.
  - refine (bool_decide_unpack _ _). vm_compute. exact I.
Defined.

Lemma query_models_parallel_isolates_witness :
  ∃ result result',
    query_models_parallel None str_of second_call_fails [2; 0; 3; 1]
      Config.COUNCIL_MODELS [user_says "hello"] = Some (Ok result) ∧
    query_models_parallel None str_of all_calls_answer [0; 1; 2; 3]
      Config.COUNCIL_MODELS [user_says "hello"] = Some (Ok result') ∧
    keys result = keys result' ∧
    ∀ i, i ≠ 1 → result !! i = result' !! i.
Proof.
  apply (query_models_parallel_isolates None str_of [user_says "hello"]
           second_call_fails all_calls_answer [2; 0; 3; 1] [0; 1; 2; 3]
           Config.COUNCIL_MODELS 1).
  - refine (bool_decide_unpack _ _). vm_compute. exact I.
  - refine (bool_decide_unpack _ _). vm_compute. exact I.
  - refine (bool_decide_unpack _ _). vm_compute. exact I.
  - intros i req Hi. unfold second_call_fails, all_calls_answer.
    destruct (Nat.eqb_spec i 1); [lia|reflexivity].
Defined.

Lemma query_models_parallel_on_council_witness :
  Config.CHAIRMAN_MODEL ∈ Config.COUNCIL_MODELS ∧
  ∃ result,
    query_models_parallel None str_of second_call_fails [3; 2; 1; 0]
      Config.COUNCIL_MODELS [user_says "hello"] = Some (Ok result) ∧
    keys result = Config.COUNCIL_MODELS ∧
    length result = 4.
Proof.
  apply (query_models_parallel_on_council None str_of [user_says "hello"]
           second_call_fails [3; 2; 1; 0]).
  refine (bool_decide_unpack _ _). vm_compute. exact I.
Defined.
End gateway_more_samples.

Section calm_more_runs.
Import Py Main Examples.
#[local] Existing Instance calm.

Lemma unknown_conversation_is_404_witness :
  api_get_conversation "c9" start = (Raise HTTP_404, start) ∧
  send_message "c9" "hello" start = (Raise HTTP_404, start) ∧
  send_message_stream "c9" "hello" start = (Raise HTTP_404, start).
Proof.
  apply (unknown_conversation_is_404 "c9" "hello" start). reflexivity.
Defined.

Lemma endpoints_touch_one_conversation_witness :
  store (send_message "c1" "hello" two_conversations).2 !! "c2"
    = store two_conversations !! "c2" ∧
  store (send_message_stream "c1" "hello" two_conversations).2 !! "c2"
    = store two_conversations !! "c2".
Proof.
  apply (endpoints_touch_one_conversation "c1" "hello" two_conversations "c2").
  discriminate.
Defined.

Lemma send_message_persists_witness :
  ∃ stage1 stage2 stage3 metadata title,
    run_full_council "hello" = Ok (stage1, stage2, stage3, metadata) ∧
    calm_response =
      JObj [("stage1", stage1); ("stage2", stage2); ("stage3", stage3);
            ("metadata", metadata)] ∧
    store calm_blocking_end !! "c1" =
      Some {| Storage.title := title;
              Storage.messages :=
                Storage.messages new_conversation
                ++ [Storage.UserMessage "hello";
                    Storage.AssistantMessage stage1 stage2 stage3] |} ∧
    generate_conversation_title "hello" = Ok title.
Proof.
  apply (send_message_persists "c1" "hello" start new_conversation
           calm_response calm_blocking_end).
  - reflexivity.
  - reflexivity.
Defined.

Lemma later_message_leaves_title_witness :
  (∃ new conv1,
     trace (send_message "c2" "hello" two_conversations).2
       = trace two_conversations ++ new ∧
     Forall (λ a, is_title_action a = false) new ∧
     store (send_message "c2" "hello" two_conversations).2 !! "c2" = Some conv1 ∧
     Storage.title conv1 = Storage.title old_conversation) ∧
  (∃ new conv1,
     trace (send_message_stream "c2" "hello" two_conversations).2
       = trace two_conversations ++ new ∧
     Forall (λ a, is_title_action a = false) new ∧
     store (send_message_stream "c2" "hello" two_conversations).2 !! "c2"
       = Some conv1 ∧
     Storage.title conv1 = Storage.title old_conversation).
Proof.
  apply (later_message_leaves_title "c2" "hello" two_conversations
           old_conversation).
  - reflexivity.
  - reflexivity.
Defined.

Lemma stream_persists_witness :
  ∃ stage1 stage2 label_to_model stage3 title,
    stage1_collect_responses "hello" = Ok stage1 ∧
    stage2_collect_rankings "hello" stage1 = Ok (stage2, label_to_model) ∧
    stage3_synthesize_final "hello" stage1 stage2 = Ok stage3 ∧
    store calm_stream_end !! "c1" =
      Some {| Storage.title := title;
              Storage.messages :=
                Storage.messages new_conversation
                ++ [Storage.UserMessage "hello";
                    Storage.AssistantMessage stage1 stage2 stage3] |} ∧
    generate_conversation_title "hello" = Ok title.
Proof.
  apply (stream_persists "c1" "hello" start new_conversation calm_stream_end).
  - reflexivity.
  - reflexivity.
Defined.

Lemma modes_store_the_same_witness :
  store calm_stream_end = store calm_blocking_end.
Proof.
  apply (modes_store_the_same "c1" "hello" start new_conversation
           calm_stream_end calm_response calm_blocking_end
           (JArr [JObj [("model", JStr "m1")]]) (JArr [])
           (JObj [("Response A", JStr "m1")])
           (JObj [("model", JStr "chairman")]) (JObj [])).
  - reflexivity.
  - reflexivity.
  - reflexivity.
  - reflexivity.
  - reflexivity.
  - reflexivity.
  - reflexivity.
Defined.
End calm_more_runs.

Section ranking_down_more_runs.
Import Py Main Examples.
#[local] Existing Instance ranking_down.

Lemma stream_ends_with_one_terminal_event_witness :
  ∃ σ2 new earlier last,
    send_message_stream "c1" "hello" start = (Ok (), σ2) ∧
    trace σ2 = trace start ++ new ∧
    events new = earlier ++ [last] ∧
    Forall (λ ev, ∃ t, event_type ev = Some t ∧ t ∈ progress_event_types)
      earlier ∧
    (event_type last = Some "complete" ∨ event_type last = Some "error") ∧
    (event_type last = Some "complete" ↔
     Exists (λ a, is_assistant_write a = true) new).
Proof.
  apply (stream_ends_with_one_terminal_event "c1" "hello" start
           new_conversation).
  reflexivity.
Defined.

Lemma send_message_failure_keeps_user_message_witness :
  ∃ new conv1,
    trace ranking_down_blocking_end = trace start ++ new ∧
    store ranking_down_blocking_end !! "c1" = Some conv1 ∧
    Forall (λ a, is_assistant_write a = false) new ∧
    (Storage.messages conv1 = Storage.messages new_conversation ∨
     Storage.messages conv1 =
       Storage.messages new_conversation ++ [Storage.UserMessage "hello"]) ∧
    (storage_fault (AddUserMessage "c1" "hello") = None →
     Storage.messages conv1 =
       Storage.messages new_conversation ++ [Storage.UserMessage "hello"]).
Proof.
  apply (send_message_failure_keeps_user_message "c1" "hello" start
           new_conversation boom ranking_down_blocking_end).
  - reflexivity.
  - reflexivity.
Defined.
End ranking_down_more_runs.

Section title_down_runs.
Import Py Main Examples.
#[local] Existing Instance title_down.

Lemma title_failure_by_mode_witness :
  trace (send_message_stream "c1" "hello" start).2 = trace start ++
    [ Stored (AddUserMessage "c1" "hello");
      CreateTask Title;
      Yield (event "stage1_start" []);
      Await Stage1;
      Yield (event "stage1_complete"
               [("data", JArr [JObj [("model", JStr "m1")]])]);
      Yield (event "stage2_start" []);
      Await Stage2;
      Yield (event "stage2_complete"
               [("data", JArr []);
                ("metadata", JObj [("label_to_model",
                                    JObj [("Response A", JStr "m1")]);
                                   ("aggregate_rankings", JArr [])])]);
      Yield (event "stage3_start" []);
      Await Stage3;
      Yield (event "stage3_complete"
               [("data", JObj [("model", JStr "chairman")])]);
      AwaitTask Title;
      Yield (event "error" [("message", JStr (str_exn boom))]) ] ∧
  (send_message "c1" "hello" start).1 = Raise boom ∧
  trace (send_message "c1" "hello" start).2 = trace start ++
    [ Stored (AddUserMessage "c1" "hello"); Await Title ].
Proof.
  apply (title_failure_by_mode "c1" "hello" start new_conversation boom
           (JArr [JObj [("model", JStr "m1")]]) (JArr [])
           (JObj [("Response A", JStr "m1")]) (JArr [])
           (JObj [("model", JStr "chairman")]) 1 0 (JStr "chairman")).
  - reflexivity.
  - reflexivity.
  - reflexivity.
  - reflexivity.
  - reflexivity.
  - reflexivity.
  - reflexivity.
  - reflexivity.
  - reflexivity.
  - reflexivity.
  - reflexivity.
Defined.
End title_down_runs.

Section stage3_text_runs.
Import Py Main Examples.
#[local] Existing Instance stage3_text.

Lemma stream_stage3_not_a_dict_witness :
  ∃ σ2 new,
    send_message_stream "c1" "hello" start = (Ok (), σ2) ∧
    trace σ2 = trace start ++ new ∧
    events new =
      [ event "stage1_start" [];
        event "stage1_complete" [("data", JArr [JObj [("model", JStr "m1")]])];
        event "stage2_start" [];
        event "stage2_complete"
          [("data", JArr []);
           ("metadata", JObj [("label_to_model",
                               JObj [("Response A", JStr "m1")]);
                              ("aggregate_rankings", JArr [])])];
        event "stage3_start" [];
        event "error"
          [("message",
            JStr ("'" +:+ type_name (JStr "final answer")
                  +:+ "' object has no attribute 'get'"))] ] ∧
    Forall (λ a, is_assistant_write a = false) new.
Proof.
  apply (stream_stage3_not_a_dict "c1" "hello" start new_conversation
           (JArr [JObj [("model", JStr "m1")]]) (JArr [])
           (JObj [("Response A", JStr "m1")]) (JArr [])
           (JStr "final answer") 1 0).
  - reflexivity.
  - reflexivity.
  - reflexivity.
  - reflexivity.
  - reflexivity.
  - reflexivity.
  - reflexivity.
  - reflexivity.
  - reflexivity.
Defined.
End stage3_text_runs.
